(** * Azure Spot VM eviction monitor: a shallow embedding of vm-monitor.py

    The development follows src/vm-monitor-agent/vm-monitor.py function by
    function.  The outside world (the metadata service, the webhook, the
    clock, the host name) is an explicit input; calls that leave the process
    (HTTP requests, [time.sleep], [send_webhook]) are recorded in a trace so
    that statements about what the loop does can be read off a run. *)

From Stdlib Require Import ZArith QArith Lia.
From stdpp Require Import base decidable option list gmap strings.

Local Open Scope string_scope.
Local Open Scope list_scope.
Local Open Scope Z_scope.

(** ** Python values and exceptions *)

#[local] Set Warnings "-register-all".

(** What [response.json()] can return.  JSON [null] is Python's [None];
    a JSON object is a dict, given by its items (keys distinct); numbers are
    taken to be integers. *)
Inductive json : Type :=
| JNull
| JBool (b : bool)
| JNum (n : Z)
| JStr (s : string)
| JArr (items : list json)
| JObj (fields : list (string * json)).

(** The exception classes that the program can meet.  [RequestException]
    stands for [requests.exceptions.RequestException] and its subclasses
    (connection errors, timeouts, [HTTPError]). *)
Inductive exn : Type :=
| RequestException
| ValueError
| TypeError
| AttributeError.

(** A Python expression either yields a value or raises. *)
Inductive result (A : Type) : Type :=
| Ok (a : A)
| Raise (e : exn).
Arguments Ok {A} a.
Arguments Raise {A} e.

#[global] Instance result_ret : MRet result := λ A a, Ok a.
#[global] Instance result_bind : MBind result :=
  λ A B f r, match r with Ok a => f a | Raise e => Raise e end.

(** [try: body / except requests.exceptions.RequestException: return handler] *)
Definition except_RequestException {A} (body : result A) (handler : A) : result A :=
  match body with
  | Raise RequestException => Ok handler
  | r => r
  end.

(** Truth value of a Python object ([if x], [not x]). *)
Definition truthy (j : json) : bool :=
  match j with
  | JNull => false
  | JBool b => b
  | JNum n => negb (n =? 0)
  | JStr s => negb (String.eqb s "")
  | JArr items => match items with [] => false | _ => true end
  | JObj fields => match fields with [] => false | _ => true end
  end.

Fixpoint assoc (k : string) (fields : list (string * json)) : option json :=
  match fields with
  | [] => None
  | (k', v) :: rest => if String.eqb k k' then Some v else assoc k rest
  end.

(** [d.get(k, default)]: only dicts have [get]. *)
Definition py_get (d : json) (k : string) (default : json) : result json :=
  match d with
  | JObj fields => Ok (match assoc k fields with Some v => v | None => default end)
  | _ => Raise AttributeError
  end.

Definition is_str (k : string) (j : json) : bool :=
  match j with JStr s => String.eqb s k | _ => false end.

Definition is_substring (k s : string) : bool :=
  match String.index 0 k s with Some _ => true | None => false end.

(** [k in c] for a string [k]: key of a dict, element of a list, substring
    of a string; numbers and booleans are not containers. *)
Definition py_in (k : string) (c : json) : result bool :=
  match c with
  | JObj fields => Ok (match assoc k fields with Some _ => true | None => false end)
  | JArr items => Ok (existsb (is_str k) items)
  | JStr s => Ok (is_substring k s)
  | JNull | JBool _ | JNum _ => Raise TypeError
  end.

Fixpoint chars (s : string) : list json :=
  match s with
  | EmptyString => []
  | String c rest => JStr (String c EmptyString) :: chars rest
  end.

(** [for x in c]: the elements of a list, the keys of a dict, the characters
    of a string. *)
Definition py_iter (c : json) : result (list json) :=
  match c with
  | JArr items => Ok items
  | JObj fields => Ok (map (λ kv, JStr kv.1) fields)
  | JStr s => Ok (chars s)
  | JNull | JBool _ | JNum _ => Raise TypeError
  end.

(** Members of a Python [set] built from JSON scalars: [None], a number
    ([True] and [False] are equal to 1 and 0 and hash alike), or a string. *)
Abbreviation key := (option (Z + string)).

(** Hashing, as needed by [x in s] and [s.add(x)]: lists and dicts are
    unhashable. *)
Definition py_hash (j : json) : result key :=
  match j with
  | JNull => Ok None
  | JBool b => Ok (Some (inl (if b then 1 else 0)))
  | JNum n => Ok (Some (inl n))
  | JStr s => Ok (Some (inr s))
  | JArr _ | JObj _ => Raise TypeError
  end.

(** ** HTTP *)

Record response : Type := {
  status_code : Z;
  (** what [response.json()] does: the decoded body, or the exception it
      raises ([requests.exceptions.JSONDecodeError], a [RequestException]
      in current releases of requests, a plain [ValueError] in older ones) *)
  json_body : result json
}.

(** [requests.get] / [requests.post] with a timeout: a response, or a
    [RequestException] (connection error, timeout). *)
Inductive http_outcome : Type :=
| RequestFailed
| Responded (r : response).

Definition requests_call (o : http_outcome) : result response :=
  match o with
  | RequestFailed => Raise RequestException
  | Responded r => Ok r
  end.

(** [response.raise_for_status()] raises [HTTPError] for 4xx and 5xx. *)
Definition raise_for_status (r : response) : result unit :=
  if (400 <=? status_code r) && (status_code r <? 600)
  then Raise RequestException else Ok tt.

(** ** Constants *)

Definition CHECK_INTERVAL : Z := 5.
Definition HEARTBEAT_INTERVAL : Z := 300.
Definition MAX_CONSECUTIVE_ERRORS : Z := 10.
Definition DEFAULT_RESOURCE_GROUP : string := "test".
Definition DEFAULT_WEBHOOK_URL : string :=
  "https://azure-vm-manager.mastercraftapps.workers.dev/webhook".

(** ** get_azure_metadata *)

Definition get_azure_metadata (get : http_outcome) : result (json * json) :=
  except_RequestException
    (response ← requests_call get;
     raise_for_status response;;
     metadata ← json_body response;
     compute ← py_get metadata "compute" (JObj []);
     vm_name ← py_get compute "name" JNull;
     compute ← py_get metadata "compute" (JObj []);
     resource_group ← py_get compute "resourceGroupName" JNull;
     if negb (truthy vm_name) || negb (truthy resource_group)
     then Ok (JNull, JNull)
     else Ok (resource_group, vm_name))
    (JNull, JNull).

(** ** check_scheduled_events *)

Definition termination_types : list string :=
  ["Preempt"; "Terminate"; "Reboot"; "Redeploy"].

Definition is_termination_type (j : json) : bool :=
  match j with
  | JStr s => bool_decide (s ∈ termination_types)
  | _ => false
  end.

(** The list comprehension of lines 83-86, evaluated left to right. *)
Fixpoint termination_filter (events : list json) : result (list json) :=
  match events with
  | [] => Ok []
  | event :: rest =>
      ty ← py_get event "EventType" JNull;
      kept ← termination_filter rest;
      Ok (if is_termination_type ty then event :: kept else kept)
  end.

(** Returns the event, or [JNull] for [None]. *)
Definition check_scheduled_events (get : http_outcome) : result json :=
  except_RequestException
    (response ← requests_call get;
     raise_for_status response;;
     events_data ← json_body response;
     if negb (truthy events_data) then Ok JNull else
     present ← py_in "Events" events_data;
     if negb present then Ok JNull else
     events ← py_get events_data "Events" (JArr []);
     items ← py_iter events;
     termination_events ← termination_filter items;
     match termination_events with
     | first :: _ => Ok first
     | [] => Ok JNull
     end)
    JNull.

(** ** send_webhook *)

Inductive level : Type := INFO | WARNING | ERROR.

#[global] Instance level_eq_dec : EqDecision level.
Proof. solve_decision. Defined.

(** A log record: level and message (interpolated values left out). *)
Abbreviation log_line := (level * string)%type.

Definition key_set (k : option string) : bool :=
  match k with
  | Some s => negb (String.eqb s "")
  | None => false
  end.

(** The module-level settings that [main] may override (lines 154-158) and
    the two intervals it computes (lines 165-166). *)
Record config : Type := {
  WEBHOOK_URL : string;
  WEBHOOK_API_KEY : option string;
  check_interval : Z;
  heartbeat_interval : Z
}.

(** [send_webhook(resource_group, vm_name, event_type, event_time)]: the
    value returned and the lines logged.  [post] is what [requests.post]
    does when it is called; the payload holds [resource_group] and [vm_name]
    only, so the event arguments do not influence the outcome. *)
Definition send_webhook (cfg : config) (resource_group vm_name : json)
    (post : http_outcome) : bool * list log_line :=
  if negb (key_set (WEBHOOK_API_KEY cfg)) then
    (false, [(ERROR, "WEBHOOK_API_KEY environment variable not set - cannot authenticate with webhook")])
  else
    let sending := (INFO, "Sending webhook notification") in
    match post with
    | RequestFailed => (false, [sending; (ERROR, "Error sending webhook")])
    | Responded response =>
        if status_code response =? 401 then
          (false, [sending; (ERROR, "Webhook authentication failed - check WEBHOOK_API_KEY")])
        else if status_code response =? 400 then
          (false, [sending; (ERROR, "Bad request to webhook")])
        else
          match raise_for_status response with
          | Raise _ => (false, [sending; (ERROR, "Error sending webhook")])
          | Ok _ =>
              (true,
               [sending; (INFO, "Webhook sent successfully");
                match json_body response with
                | Ok _ => (INFO, "Webhook response")
                | Raise _ => (INFO, "Webhook response (non-JSON)")
                end])
          end
    end.

(** The four outcomes the specification names for a send, read off the
    returned value and the error line that was logged. *)
Inductive Result : Type := Success | AuthFailure | BadRequest | NetworkFailure.

Definition classify (out : bool * list log_line) : option Result :=
  if out.1 then Some Success
  else if bool_decide ((ERROR, "Webhook authentication failed - check WEBHOOK_API_KEY") ∈ out.2)
  then Some AuthFailure
  else if bool_decide ((ERROR, "Bad request to webhook") ∈ out.2) then Some BadRequest
  else if bool_decide ((ERROR, "Error sending webhook") ∈ out.2) then Some NetworkFailure
  else None.

(** ** The monitoring loop of [main] *)

(** The three places where [main] calls [send_webhook]. *)
Inductive call_site : Type :=
| ConnectivityTest               (* line 198 *)
| Notification (event_id : key)  (* line 229, for the event with this EventId *)
| Heartbeat.                     (* line 242 *)

(** What the process does to the outside, in the order it does it. *)
Inductive action : Type :=
| GetInstanceInfo                              (* the GET of get_azure_metadata *)
| GetScheduledEvents                           (* the GET of check_scheduled_events *)
| SendWebhook (site : call_site) (success : bool)  (* a call of send_webhook and what it returned *)
| Sleep (seconds : Z).                         (* time.sleep *)

#[global] Instance call_site_eq_dec : EqDecision call_site.
Proof. solve_decision. Defined.
#[global] Instance action_eq_dec : EqDecision action.
Proof. solve_decision. Defined.

(** The local variables of [main] that the loop reads and writes, and the
    trace so far (latest action last). *)
Record loop_state : Type := {
  processed_events : gset key;
  consecutive_errors : Z;
  last_heartbeat_time : Q;
  trace : list action
}.

(** What the outside world does during one iteration.  Clock readings are
    seconds, with fractions. *)
Record cycle_world : Type := {
  current_time : Q;            (* time.time() at line 212 *)
  utc_now : string;            (* datetime.now(timezone.utc).isoformat() *)
  events_get : http_outcome;   (* the scheduled-events GET *)
  event_post : http_outcome;   (* the POST of line 229, if it is made *)
  heartbeat_post : http_outcome (* the POST of line 242, if it is made *)
}.

(** Statements that may raise and that update the loop's variables: an
    exception leaves the updates made before it in place. *)
Definition M (A : Type) : Type := loop_state → result A * loop_state.

#[global] Instance M_ret : MRet M := λ A a s, (Ok a, s).
#[global] Instance M_bind : MBind M :=
  λ A B f m s, match m s with
               | (Ok a, s') => f a s'
               | (Raise e, s') => (Raise e, s')
               end.

Definition lift {A} (r : result A) : M A := λ s, (r, s).
Definition get_state : M loop_state := λ s, (Ok s, s).
Definition emit (a : action) : M unit :=
  λ s, (Ok tt, {| processed_events := processed_events s;
                  consecutive_errors := consecutive_errors s;
                  last_heartbeat_time := last_heartbeat_time s;
                  trace := trace s ++ [a] |}).
Definition set_consecutive_errors (n : Z) : M unit :=
  λ s, (Ok tt, {| processed_events := processed_events s;
                  consecutive_errors := n;
                  last_heartbeat_time := last_heartbeat_time s;
                  trace := trace s |}).
Definition set_last_heartbeat_time (t : Q) : M unit :=
  λ s, (Ok tt, {| processed_events := processed_events s;
                  consecutive_errors := consecutive_errors s;
                  last_heartbeat_time := t;
                  trace := trace s |}).
(** [processed_events.add(k)] *)
Definition add_processed (k : key) : M unit :=
  λ s, (Ok tt, {| processed_events := {[k]} ∪ processed_events s;
                  consecutive_errors := consecutive_errors s;
                  last_heartbeat_time := last_heartbeat_time s;
                  trace := trace s |}).

(** A call of [send_webhook] from [main], recorded with its call site. *)
Definition call_send_webhook (cfg : config) (resource_group vm_name : json)
    (site : call_site) (post : http_outcome) : M bool :=
  let success := (send_webhook cfg resource_group vm_name post).1 in
  emit (SendWebhook site success);; mret success.

(** [x not in processed_events] *)
Definition not_in_processed (x : json) : M bool :=
  k ← lift (py_hash x);
  s ← get_state;
  mret (negb (bool_decide (k ∈ processed_events s))).

(** Lines 216-243: the body of the [try]. *)
Definition try_body (cfg : config) (resource_group vm_name : json)
    (w : cycle_world) : M unit :=
  emit GetScheduledEvents;;
  event ← lift (check_scheduled_events (events_get w));
  set_consecutive_errors 0;;
  new ← (if truthy event
         then x ← lift (py_get event "EventId" JNull); not_in_processed x
         else mret false);
  (if new : bool then
     event_id ← lift (py_get event "EventId" JNull);
     event_type ← lift (py_get event "EventType" JNull);
     event_time ← lift (py_get event "NotBefore" (JStr (utc_now w)));
     k ← lift (py_hash event_id);
     success ← call_send_webhook cfg resource_group vm_name (Notification k) (event_post w);
     if success : bool then add_processed k else mret tt
   else mret tt);;
  s ← get_state;
  if Qle_bool (inject_Z (heartbeat_interval cfg))
       (current_time w - last_heartbeat_time s)%Q then
    call_send_webhook cfg resource_group vm_name Heartbeat (heartbeat_post w);;
    set_last_heartbeat_time (current_time w)
  else mret tt.

(** [time.sleep(seconds)]: the call is recorded; a negative argument makes
    it raise [ValueError]. *)
Definition time_sleep (seconds : Z) : M unit :=
  emit (Sleep seconds);;
  if seconds <? 0 then lift (Raise ValueError) else mret tt.

(** Lines 245-255: [except Exception]. *)
Definition except_Exception (cfg : config) : M unit :=
  s ← get_state;
  set_consecutive_errors (consecutive_errors s + 1);;
  s ← get_state;
  if consecutive_errors s >? MAX_CONSECUTIVE_ERRORS then
    let backoff_interval := Z.min 300 (check_interval cfg * 2) in
    time_sleep backoff_interval;;
    set_consecutive_errors (MAX_CONSECUTIVE_ERRORS `div` 2)
  else mret tt.

(** One iteration of [while True] (lines 211-258).  Every exception of the
    [try] body is caught; one raised by a [time.sleep], in the handler or at
    the end of the iteration, is not, and leaves the loop. *)
Definition iteration (cfg : config) (resource_group vm_name : json)
    (w : cycle_world) : M unit :=
  λ s, match try_body cfg resource_group vm_name w s with
       | (Ok _, s') => time_sleep (check_interval cfg) s'
       | (Raise _, s') =>
           (except_Exception cfg;; time_sleep (check_interval cfg)) s'
       end.

(** The loop, for as many iterations as [ws] describes, or until an
    exception leaves it. *)
Fixpoint run (cfg : config) (resource_group vm_name : json)
    (ws : list cycle_world) : M unit :=
  match ws with
  | [] => mret tt
  | w :: rest =>
      iteration cfg resource_group vm_name w;;
      run cfg resource_group vm_name rest
  end.

(** ** Start-up of [main] *)

(** The parsed command line (line 151). *)
Record args : Type := {
  webhook : option string;
  interval : Z;
  heartbeat : Z;
  api_key : option string
}.

(** What the outside world does during start-up. *)
Record startup_world : Type := {
  getenv_WEBHOOK_API_KEY : option string;  (* os.getenv, line 43 *)
  instance_gets : nat → http_outcome;      (* the n-th instance-metadata GET *)
  gethostname : string;                    (* socket.gethostname() *)
  test_post : http_outcome;                (* the POST of line 198 *)
  start_time : Q                           (* time.time() at line 208 *)
}.

Definition max_retries : Z := 5.

(** The variables of the retry loop: resource_group, vm_name, retry_count. *)
Abbreviation identity_vars := (json * json * Z)%type.

(** Lines 173-178.  [fuel] bounds the number of times the body is run;
    [None] means that the condition still held when the fuel ran out.  The
    result is the loop's variables on exit, or the exception that left the
    loop, with the actions performed. *)
Fixpoint identity_loop (fuel : nat) (gets : nat → http_outcome)
    (vars : identity_vars) (tr : list action)
    : option (result identity_vars * list action) :=
  let '(resource_group, vm_name, retry_count) := vars in
  if (negb (truthy resource_group) || negb (truthy vm_name))
     && (retry_count <? max_retries)
  then
    match fuel with
    | O => None
    | S fuel' =>
        match get_azure_metadata (gets 0%nat) with
        | Raise e => Some (Raise e, tr ++ [GetInstanceInfo])
        | Ok (resource_group, vm_name) =>
            if negb (truthy resource_group) || negb (truthy vm_name)
            then identity_loop fuel' (λ n, gets (S n))
                   (resource_group, vm_name, retry_count + 1)
                   (tr ++ [GetInstanceInfo; Sleep 2])
            else identity_loop fuel' (λ n, gets (S n))
                   (resource_group, vm_name, retry_count)
                   (tr ++ [GetInstanceInfo])
        end
    end
  else Some (Ok vars, tr).

(** How [main] ends, or that it reached the loop. *)
Inductive main_outcome : Type :=
| SysExit (code : Z) (tr : list action)     (* sys.exit(code), line 163 *)
| Uncaught (e : exn) (tr : list action)     (* an exception left main *)
| Monitoring (cfg : config) (resource_group vm_name : json) (s : loop_state).
                                            (* [while True] entered in state [s] *)


Definition startup_trace (o : main_outcome) : list action :=
  match o with
  | SysExit _ tr | Uncaught _ tr => tr
  | Monitoring _ _ _ s => trace s
  end.

Definition initial_state (t : Q) (tr : list action) : loop_state :=
  {| processed_events := ∅; consecutive_errors := 0;
     last_heartbeat_time := t; trace := tr |}.

(** Lines 154-208 of [main], up to the entry of [while True].  [fuel] is the
    bound given to the retry loop. *)
Definition main_with (fuel : nat) (a : args) (w : startup_world) : option main_outcome :=
  let url := if key_set (webhook a) then default DEFAULT_WEBHOOK_URL (webhook a)
             else DEFAULT_WEBHOOK_URL in
  let api := if key_set (api_key a) then api_key a else getenv_WEBHOOK_API_KEY w in
  if negb (key_set api) then Some (SysExit 1 [])
  else
    let cfg := {| WEBHOOK_URL := url; WEBHOOK_API_KEY := api;
                  check_interval := if interval a =? 0 then CHECK_INTERVAL else interval a;
                  heartbeat_interval := if heartbeat a =? 0 then HEARTBEAT_INTERVAL else heartbeat a |} in
    match identity_loop fuel (instance_gets w) (JNull, JNull, 0) [] with
    | None => None
    | Some (Raise e, tr) => Some (Uncaught e tr)
    | Some (Ok (resource_group, vm_name, _), tr) =>
        let vm_name := if negb (truthy vm_name) then JStr (gethostname w) else vm_name in
        let resource_group :=
          if negb (truthy resource_group) then JStr DEFAULT_RESOURCE_GROUP else resource_group in
        let tested := (send_webhook cfg resource_group vm_name (test_post w)).1 in
        Some (Monitoring cfg resource_group vm_name
                (initial_state (start_time w) (tr ++ [SendWebhook ConnectivityTest tested])))
    end.

(** The retry loop runs its body at most [max_retries] times, so this much
    fuel is enough (see [identity_loop_terminates]). *)
Definition main (a : args) (w : startup_world) : option main_outcome :=
  main_with (Z.to_nat max_retries) a w.

(** ** Reading a run *)

(** The actions of one iteration: what it appends to the trace. *)
Definition actions_of_iteration (cfg : config) (resource_group vm_name : json)
    (w : cycle_world) (s : loop_state) : list action :=
  drop (length (trace s)) (trace (iteration cfg resource_group vm_name w s).2).

(** The actions of a run of the loop from [s]. *)
Definition actions_of_run (cfg : config) (resource_group vm_name : json)
    (ws : list cycle_world) (s : loop_state) : list action :=
  drop (length (trace s)) (trace (run cfg resource_group vm_name ws s).2).

Definition notification_of (a : action) : option (key * bool) :=
  match a with
  | SendWebhook (Notification k) ok => Some (k, ok)
  | _ => None
  end.

(** The event notifications in a trace: the EventId and whether the send
    succeeded, in order. *)
Definition notifications (tr : list action) : list (key * bool) :=
  omap notification_of tr.

(** The EventIds whose notification succeeded, in order. *)
Definition successful (ns : list (key * bool)) : list key :=
  omap (λ n : key * bool, if n.2 then Some n.1 else None) ns.

(** The key under which [main] looks an event up in [processed_events]. *)
Definition event_key (event : json) : result key :=
  x ← py_get event "EventId" JNull; py_hash x.

(** A list of notifications is admissible from the processed set [P] when
    every send is for an id that is not yet processed at that point. *)
Fixpoint sends_ok (P : gset key) (ns : list (key * bool)) : Prop :=
  match ns with
  | [] => True
  | (k, ok) :: rest => (k ∉ P) ∧ sends_ok (if ok then {[k]} ∪ P else P) rest
  end.

(** The processed set after a list of notifications. *)
Fixpoint mark (P : gset key) (ns : list (key * bool)) : gset key :=
  match ns with
  | [] => P
  | (k, ok) :: rest => mark (if ok then {[k]} ∪ P else P) rest
  end.


(** The test of the comprehension at lines 83-86, for one event. *)
Definition has_termination_type (event : json) : bool :=
  match py_get event "EventType" JNull with
  | Ok ty => is_termination_type ty
  | Raise _ => false
  end.

Definition is_dict (j : json) : bool :=
  match j with JObj _ => true | _ => false end.

(** The selection as the specification words it: the first event whose
    type is a termination type and whose EventId is not yet processed. *)
Definition spec_pick (processed : gset key) (events : list json) : option json :=
  List.find
    (λ event, has_termination_type event &&
              match event_key event with
              | Ok k => negb (bool_decide (k ∈ processed))
              | Raise _ => false
              end)
    events.

(** ** Example inputs *)

Definition event (ty id : string) : json :=
  JObj [("EventId", JStr id); ("EventType", JStr ty)].

(** An event without an EventId. *)
Definition anonymous_event (ty : string) : json :=
  JObj [("EventType", JStr ty)].

Definition json_response (status : Z) (body : json) : http_outcome :=
  Responded {| status_code := status; json_body := Ok body |}.

(** A response whose body is not JSON. *)
Definition plain_response (status : Z) : http_outcome :=
  Responded {| status_code := status; json_body := Raise ValueError |}.

Definition events_response (events : list json) : http_outcome :=
  json_response 200 (JObj [("DocumentIncarnation", JNum 1); ("Events", JArr events)]).

Definition instance_response (rg vm : string) : http_outcome :=
  json_response 200
    (JObj [("compute", JObj [("name", JStr vm); ("resourceGroupName", JStr rg)])]).

Definition ex_args : args :=
  {| webhook := None; interval := 5; heartbeat := 300; api_key := Some "secret" |}.

Definition ex_cfg : config :=
  {| WEBHOOK_URL := DEFAULT_WEBHOOK_URL; WEBHOOK_API_KEY := Some "secret";
     check_interval := 5; heartbeat_interval := 300 |}.

(** A machine on which the metadata service answers. *)
Definition ex_startup : startup_world :=
  {| getenv_WEBHOOK_API_KEY := None;
     instance_gets := λ _, instance_response "rg1" "vm1";
     gethostname := "host1";
     test_post := plain_response 200;
     start_time := inject_Z 1000 |}.

(** A machine on which the metadata service never answers. *)
Definition ex_startup_offline : startup_world :=
  {| getenv_WEBHOOK_API_KEY := Some "secret";
     instance_gets := λ _, RequestFailed;
     gethostname := "host1";
     test_post := RequestFailed;
     start_time := inject_Z 1000 |}.


Definition ex_state : loop_state :=
  initial_state (inject_Z 1000)
    [GetInstanceInfo; SendWebhook ConnectivityTest true].

Definition ex_cycle (t : Z) (events : http_outcome) (post : http_outcome) : cycle_world :=
  {| current_time := inject_Z t; utc_now := "2025-01-01T00:00:00+00:00";
     events_get := events; event_post := post; heartbeat_post := post |}.

(** The same Preempt event polled twice, the webhook answering 200. *)
Definition ex_repeat : list cycle_world :=
  [ex_cycle 1005 (events_response [event "Preempt" "e1"]) (plain_response 200);
   ex_cycle 1010 (events_response [event "Preempt" "e1"]) (plain_response 200)].

(** Event e1 is notified; at the next poll it is still listed, followed by
    a new event e2. *)
Definition ex_masked : list cycle_world :=
  [ex_cycle 1005 (events_response [event "Preempt" "e1"]) (plain_response 200);
   ex_cycle 1010 (events_response [event "Preempt" "e1"; event "Reboot" "e2"])
     (plain_response 200)].

(** The reading of the selection in which an iteration notifies the event
    that [spec_pick] selects from the fetched list, if there is one. *)
Definition notifies_spec_pick (cfg : config) (resource_group vm_name : json)
    (w : cycle_world) (s : loop_state) (events : list json) : Prop :=
  match spec_pick (processed_events s) events with
  | Some e => ∃ k ok, event_key e = Ok k ∧
      notifications (actions_of_iteration cfg resource_group vm_name w s) = [(k, ok)]
  | None => notifications (actions_of_iteration cfg resource_group vm_name w s) = []
  end.

(** Three polls answered with a body whose "Events" entry is null, then a
    poll that fails on the network. *)
Definition ex_errors : list cycle_world :=
  [ex_cycle 1005 (json_response 200 (JObj [("Events", JNull)])) (plain_response 200);
   ex_cycle 1010 (json_response 200 (JObj [("Events", JNull)])) (plain_response 200);
   ex_cycle 1015 (json_response 200 (JObj [("Events", JNull)])) (plain_response 200);
   ex_cycle 1020 RequestFailed (plain_response 200)].

(** The classification of a send as the specification words it: 401 is an
    authentication failure, 400 a bad request, any 2xx a success, and
    every other status, like a network or timeout exception, a network
    failure. *)
Definition spec_send_result (post : http_outcome) : Result :=
  match post with
  | RequestFailed => NetworkFailure
  | Responded r =>
      if status_code r =? 401 then AuthFailure
      else if status_code r =? 400 then BadRequest
      else if (200 <=? status_code r) && (status_code r <? 300) then Success
      else NetworkFailure
  end.

(** The state after ten polls in a row have raised. *)
Definition ex_state_ten_errors : loop_state :=
  {| processed_events := ∅; consecutive_errors := 10;
     last_heartbeat_time := inject_Z 1000; trace := [] |}.


(** The number of instance-metadata fetches in a trace. *)
Definition attempts (tr : list action) : nat :=
  length (filter (λ a, a = GetInstanceInfo) tr).

(** Whether a key is available to [main]: a non-empty --api-key, or else a
    non-empty WEBHOOK_API_KEY in the environment. *)
Definition api_key_provided (a : args) (w : startup_world) : bool :=
  key_set (api_key a) || key_set (getenv_WEBHOOK_API_KEY w).


(** ** Further readings of an answer *)

(** Whether [raise_for_status] lets a status through. *)
Definition status_ok (status : Z) : bool :=
  negb ((400 <=? status) && (status <? 600)).

(** [d.get(k)] on the items of a dict, with [None] for a missing key. *)
Definition field (k : string) (fields : list (string * json)) : json :=
  default JNull (assoc k fields).

(** The same start-up with another answer to the connectivity test. *)
Definition with_test_post (post : http_outcome) (w : startup_world) : startup_world :=
  {| getenv_WEBHOOK_API_KEY := getenv_WEBHOOK_API_KEY w;
     instance_gets := instance_gets w;
     gethostname := gethostname w;
     test_post := post;
     start_time := start_time w |}.


(** A metadata service that fails [k] times and then answers. *)
Definition answers_after (k : nat) (answer : http_outcome) (n : nat) : http_outcome :=
  if (n <? k)%nat then RequestFailed else answer.

(** The actions of an iteration, spelled out from what it did: an optional
    notification, an optional heartbeat, an optional backoff sleep and the
    closing sleep (absent when the backoff sleep raised). *)
Definition iteration_actions (cfg : config) (notif : option (key * bool))
    (hb : option bool) (backoff closing : bool) : list action :=
  GetScheduledEvents ::
  match notif with Some (k, ok) => [SendWebhook (Notification k) ok] | None => [] end ++
  match hb with Some ok => [SendWebhook Heartbeat ok] | None => [] end ++
  (if backoff then [Sleep (Z.min 300 (check_interval cfg * 2))] else []) ++
  (if closing then [Sleep (check_interval cfg)] else []).

(** A Preempt event whose EventId is a JSON list. *)
Definition ex_event_list_id : json :=
  JObj [("EventId", JArr [JStr "e1"]); ("EventType", JStr "Preempt")].

(** A configuration with a negative check interval (--interval -1). *)
Definition ex_cfg_negative : config :=
  {| WEBHOOK_URL := DEFAULT_WEBHOOK_URL; WEBHOOK_API_KEY := Some "secret";
     check_interval := -1; heartbeat_interval := 300 |}.

(** A poll whose answer makes [check_scheduled_events] raise. *)
Definition ex_raising_poll (t : Z) : cycle_world :=
  ex_cycle t (json_response 200 (JObj [("Events", JNull)])) (plain_response 200).

(** ** Retrying a listed event *)




(** ** Lemmas on traces *)

Ltac unfold_loop :=
  cbv [iteration try_body except_Exception time_sleep call_send_webhook not_in_processed
       add_processed set_last_heartbeat_time set_consecutive_errors emit
       get_state lift mbind mret M_bind M_ret result_bind result_ret] in *.

Lemma iteration_trace cfg rg vm w s :
  trace (iteration cfg rg vm w s).2 = trace s ++ actions_of_iteration cfg rg vm w s.
Proof.
  unfold actions_of_iteration.
  assert (∃ δ, trace (iteration cfg rg vm w s).2 = trace s ++ δ) as [δ ->].
  { unfold_loop. repeat case_match; simplify_eq/=; rewrite <- ?app_assoc; eauto. }
  by rewrite drop_app_length.
Qed.

Lemma run_cons cfg rg vm w ws s :
  run cfg rg vm (w :: ws) s =
  match iteration cfg rg vm w s with
  | (Ok _, s') => run cfg rg vm ws s'
  | (Raise e, s') => (Raise e, s')
  end.
Proof. reflexivity. Qed.

Lemma run_trace cfg rg vm ws s :
  trace (run cfg rg vm ws s).2 = trace s ++ actions_of_run cfg rg vm ws s.
Proof.
  unfold actions_of_run.
  assert (∃ δ, trace (run cfg rg vm ws s).2 = trace s ++ δ) as [δ ->].
  { revert s. induction ws as [|w ws IH]; intros s.
    - exists []. simpl. by rewrite app_nil_r.
    - rewrite run_cons. pose proof (iteration_trace cfg rg vm w s) as Hit.
      destruct (iteration cfg rg vm w s) as [[[]|e] s']; simpl in Hit |- *.
      + destruct (IH s') as [δ ->]. rewrite Hit, <- app_assoc. eauto.
      + eauto. }
  by rewrite drop_app_length.
Qed.

(** The actions of a run: those of its first iteration, then, unless an
    exception left the loop, those of the rest. *)
Lemma actions_of_run_cons cfg rg vm w ws s :
  actions_of_run cfg rg vm (w :: ws) s =
  actions_of_iteration cfg rg vm w s ++
  match (iteration cfg rg vm w s).1 with
  | Ok _ => actions_of_run cfg rg vm ws (iteration cfg rg vm w s).2
  | Raise _ => []
  end.
Proof.
  apply (app_inv_head (trace s)).
  rewrite <- run_trace, app_assoc, <- iteration_trace, run_cons.
  destruct (iteration cfg rg vm w s) as [[[]|e] s']; simpl.
  - by rewrite <- run_trace.
  - by rewrite app_nil_r.
Qed.

Lemma notifications_app t1 t2 :
  notifications (t1 ++ t2) = notifications t1 ++ notifications t2.
Proof. apply omap_app. Qed.

(** An iteration makes at most one notification, for an id that is not yet
    processed, and marks the id exactly when the send succeeded. *)
Lemma iteration_notifications cfg rg vm w s :
  (notifications (actions_of_iteration cfg rg vm w s) = [] ∧
   processed_events (iteration cfg rg vm w s).2 = processed_events s) ∨
  (∃ k ok, notifications (actions_of_iteration cfg rg vm w s) = [(k, ok)] ∧
     (k ∉ processed_events s) ∧
     processed_events (iteration cfg rg vm w s).2 =
       (if ok : bool then {[k]} ∪ processed_events s else processed_events s)).
Proof.
  unfold actions_of_iteration. unfold_loop.
  repeat case_match; simplify_eq/=; rewrite <- ?app_assoc, ?drop_app_length;
    cbn; try (left; split; reflexivity).
  all: right; do 2 eexists; split; [reflexivity|]; split; try reflexivity.
  all: match goal with H : negb (bool_decide _) = true |- _ =>
         apply negb_true_iff, bool_decide_eq_false in H end; try done.
Qed.

Lemma sends_ok_app P n1 n2 :
  sends_ok P (n1 ++ n2) ↔ sends_ok P n1 ∧ sends_ok (mark P n1) n2.
Proof.
  revert P; induction n1 as [|[k ok] n1 IH]; intros P; simpl; [tauto|].
  rewrite IH. tauto.
Qed.

Lemma mark_app P n1 n2 : mark P (n1 ++ n2) = mark (mark P n1) n2.
Proof. revert P; induction n1 as [|[k ok] n1 IH]; intros P; simpl; auto. Qed.

Lemma mark_mono P ns : P ⊆ mark P ns.
Proof.
  revert P; induction ns as [|[k ok] ns IH]; intros P; simpl; [done|].
  etrans; [|apply IH]. destruct ok; set_solver.
Qed.

Lemma sends_ok_not_in P ns k ok : sends_ok P ns → (k, ok) ∈ ns → k ∉ P.
Proof.
  revert P; induction ns as [|[k' ok'] ns IH]; intros P Hs Hin; simpl in *.
  - by apply elem_of_nil in Hin.
  - destruct Hs as [Hk Hs]. apply elem_of_cons in Hin as [Heq|Hin].
    + by simplify_eq.
    + specialize (IH _ Hs Hin). destruct ok'; set_solver.
Qed.

Lemma successful_elem k ns : k ∈ successful ns ↔ (k, true) ∈ ns.
Proof.
  unfold successful. rewrite list_elem_of_omap. split.
  - intros ([k' ok] & Hin & Heq). simpl in Heq. destruct ok; by simplify_eq.
  - intros Hin. by exists (k, true).
Qed.

Lemma sends_ok_NoDup P ns : sends_ok P ns → NoDup (successful ns).
Proof.
  revert P; induction ns as [|[k ok] ns IH]; intros P Hs; simpl in *.
  - constructor.
  - destruct Hs as [Hk Hs]. destruct ok; simpl; [|by eapply IH].
    constructor; [|by eapply IH].
    rewrite successful_elem. intros Hin.
    apply (sends_ok_not_in _ _ _ _ Hs Hin). set_solver.
Qed.

(** The notifications of a run are admissible from the processed set it
    starts with, and the processed set it ends with is their marking. *)
Lemma run_notifications cfg rg vm ws s :
  sends_ok (processed_events s) (notifications (actions_of_run cfg rg vm ws s)) ∧
  processed_events (run cfg rg vm ws s).2 =
    mark (processed_events s) (notifications (actions_of_run cfg rg vm ws s)).
Proof.
  revert s; induction ws as [|w ws IH]; intros s.
  - unfold actions_of_run. simpl. by rewrite drop_all.
  - rewrite actions_of_run_cons, notifications_app, sends_ok_app, mark_app, run_cons.
    pose proof (iteration_notifications cfg rg vm w s) as Hit.
    destruct (iteration cfg rg vm w s) as [[[]|e] s'] eqn:Hiter; cbn [fst snd] in *.
    + destruct (IH s') as [Hs2 Hp2]. rewrite Hp2.
      destruct Hit as [[Hn Hp]|(k & ok & Hn & Hk & Hp)]; rewrite Hn; simpl;
        by rewrite <- Hp.
    + destruct Hit as [[Hn Hp]|(k & ok & Hn & Hk & Hp)]; rewrite Hn; simpl;
        by rewrite <- Hp.
Qed.

Lemma sends_ok_after_success P n1 k n2 :
  sends_ok P (n1 ++ (k, true) :: n2) →
  k ∈ mark P (n1 ++ (k, true) :: n2) ∧ ∀ ok, (k, ok) ∉ n2.
Proof.
  rewrite sends_ok_app, mark_app. simpl. intros (_ & Hk & Hs). split.
  - apply (mark_mono _ n2). set_solver.
  - intros ok Hin. apply (sends_ok_not_in _ _ _ _ Hs Hin). set_solver.
Qed.

Lemma notification_elem k ok tr :
  SendWebhook (Notification k) ok ∈ tr ↔ (k, ok) ∈ notifications tr.
Proof.
  unfold notifications. rewrite list_elem_of_omap. split.
  - intros Hin. by exists (SendWebhook (Notification k) ok).
  - intros (a & Hin & Heq). destruct a as [| |[]|]; by simplify_eq/=.
Qed.

(** ** Lemmas on start-up *)

(** The retry loop only fetches and sleeps. *)
Lemma identity_loop_notifications fuel gets vars tr r tr' :
  identity_loop fuel gets vars tr = Some (r, tr') →
  notifications tr' = notifications tr.
Proof.
  revert gets vars tr.
  induction fuel as [|fuel IH]; intros gets [[rg vm] rc] tr; simpl;
    repeat case_match; intros Hloop; simplify_eq; try done.
  - apply IH in Hloop. by rewrite Hloop, notifications_app, app_nil_r.
  - apply IH in Hloop. by rewrite Hloop, notifications_app, app_nil_r.
  - by rewrite notifications_app, app_nil_r.
Qed.

(** The state in which [main] enters the loop. *)
Lemma main_monitoring a w cfg rg vm s :
  main a w = Some (Monitoring cfg rg vm s) →
  processed_events s = ∅ ∧ notifications (trace s) = [] ∧
  consecutive_errors s = 0 ∧ last_heartbeat_time s = start_time w ∧
  key_set (WEBHOOK_API_KEY cfg) = true.
Proof.
  unfold main. generalize (Z.to_nat max_retries). intros fuel.
  unfold main_with. intros Hmain.
  repeat case_match; simplify_eq.
  all: simpl; repeat split; try done.
  all: try by apply negb_false_iff.
  all: rewrite notifications_app; cbn;
    by erewrite identity_loop_notifications by eassumption.
Qed.

(** * Theorems *)

(** ** C1 *)

(** C1.  Over the whole life of the process (start-up, then any number of
    iterations on any polled data, clock readings and webhook answers), no
    EventId is notified successfully twice: the list of successfully
    notified ids has no duplicates, and once a notification for id [k] has
    returned success, [k] is in [processed_events] and no send for [k],
    successful or not, occurs later in the trace. *)
Theorem notified_successfully_at_most_once a w0 cfg rg vm s0 ws :
  main a w0 = Some (Monitoring cfg rg vm s0) →
  NoDup (successful (notifications (trace (run cfg rg vm ws s0).2))) ∧
  ∀ t1 k t2,
    trace (run cfg rg vm ws s0).2 = t1 ++ SendWebhook (Notification k) true :: t2 →
    k ∈ processed_events (run cfg rg vm ws s0).2 ∧
    ∀ ok, SendWebhook (Notification k) ok ∉ t2.
Proof.
  intros Hmain.
  destruct (main_monitoring _ _ _ _ _ _ Hmain) as (Hp0 & Hn0 & _).
  destruct (run_notifications cfg rg vm ws s0) as [Hs Hp].
  assert (notifications (trace (run cfg rg vm ws s0).2) =
          notifications (actions_of_run cfg rg vm ws s0)) as Hn.
  { by rewrite run_trace, notifications_app, Hn0. }
  split.
  - rewrite Hn. by eapply sends_ok_NoDup.
  - intros t1 k t2 Ht. rewrite Hp, <- Hn, Ht.
    rewrite <- Hn, Ht, notifications_app in Hs. simpl in Hs.
    rewrite notifications_app. simpl.
    destruct (sends_ok_after_success _ _ _ _ Hs) as [Hin Hno].
    split; [done|]. intros ok. rewrite notification_elem. apply Hno.
Qed.

(** An instance: the same Preempt event polled twice while the webhook
    answers 200; after the first notification nothing more is sent for it. *)
Lemma notified_successfully_at_most_once_witness :
  Some (inr "e1") ∈ processed_events (run ex_cfg (JStr "rg1") (JStr "vm1") ex_repeat ex_state).2 ∧
  ∀ ok, SendWebhook (Notification (Some (inr "e1"))) ok
          ∉ [Sleep 5; GetScheduledEvents; Sleep 5].
Proof.
  apply (proj2 (notified_successfully_at_most_once
                  ex_args ex_startup ex_cfg (JStr "rg1") (JStr "vm1") ex_state
                  ex_repeat ltac:(vm_compute; reflexivity))
               [GetInstanceInfo; SendWebhook ConnectivityTest true; GetScheduledEvents]).
  vm_compute; reflexivity.
Defined.

(** ** Lemmas on detection *)

(** What an iteration notifies, given what [check_scheduled_events]
    returned, and how it updates [processed_events]. *)
Lemma iteration_detected cfg rg vm w s e :
  check_scheduled_events (events_get w) = Ok e →
  notifications (actions_of_iteration cfg rg vm w s) =
    (if truthy e then
       match event_key e with
       | Ok k => if bool_decide (k ∈ processed_events s) then []
                 else [(k, (send_webhook cfg rg vm (event_post w)).1)]
       | Raise _ => []
       end
     else []) ∧
  processed_events (iteration cfg rg vm w s).2 =
    mark (processed_events s) (notifications (actions_of_iteration cfg rg vm w s)).
Proof.
  intros Hcheck. unfold actions_of_iteration, event_key. unfold_loop.
  rewrite Hcheck. clear Hcheck.
  destruct e as [| | | | |fields]; cbn [py_get];
    repeat case_match; simplify_eq/=; rewrite <- ?app_assoc, ?drop_app_length;
    cbn; try done.
  all: repeat match goal with
         | H : negb _ = true |- _ => apply negb_true_iff in H
         | H : negb _ = false |- _ => apply negb_false_iff in H
         end; congruence.
Qed.

Lemma has_termination_type_truthy e :
  has_termination_type e = true → is_dict e = true ∧ truthy e = true.
Proof.
  destruct e as [| | | | |fields]; try done.
  unfold has_termination_type. simpl. destruct fields; done.
Qed.

Lemma termination_filter_kept evs kept :
  termination_filter evs = Ok kept →
  Forall (λ e, has_termination_type e = true) kept.
Proof.
  revert kept. induction evs as [|e evs IH]; intros kept; simpl.
  - intros; simplify_eq. constructor.
  - unfold mbind, result_bind, has_termination_type in *.
    destruct (py_get e "EventType" JNull) as [ty|] eqn:Hty; [|done].
    destruct (termination_filter evs) as [kept'|]; [|done].
    intros; simplify_eq. specialize (IH _ eq_refl).
    destruct (is_termination_type ty) eqn:Hterm; [|done].
    constructor; [|done]. unfold has_termination_type. by rewrite Hty.
Qed.

(** [check_scheduled_events] returns [None] or a non-empty dict whose
    EventType is one of the four termination types. *)
Lemma check_scheduled_events_returns get e :
  check_scheduled_events get = Ok e →
  e = JNull ∨ has_termination_type e = true.
Proof.
  unfold check_scheduled_events, except_RequestException, mbind, result_bind.
  repeat case_match; intros; simplify_eq; auto.
  right.
  match goal with H : termination_filter _ = Ok _ |- _ =>
    apply termination_filter_kept in H; by inversion H end.
Qed.

Lemma termination_filter_dicts evs :
  Forall (λ e, is_dict e = true) evs →
  termination_filter evs = Ok (List.filter has_termination_type evs).
Proof.
  induction 1 as [|e evs He _ IH]; [done|].
  destruct e as [| | | | |fields]; try done.
  simpl. unfold mbind, result_bind. rewrite IH.
  unfold has_termination_type. simpl. by case_match.
Qed.

Lemma head_filter_find {A} (f : A → bool) l :
  head (List.filter f l) = List.find f l.
Proof. induction l as [|x l IH]; simpl; [done|]. by destruct (f x). Qed.

(** On a well-formed answer of the scheduled-events endpoint, the function
    returns the first event of a termination type. *)
Lemma check_scheduled_events_first w status fields evs :
  events_get w = Responded {| status_code := status; json_body := Ok (JObj fields) |} →
  ¬ (400 ≤ status < 600) →
  assoc "Events" fields = Some (JArr evs) →
  Forall (λ e, is_dict e = true) evs →
  check_scheduled_events (events_get w) =
    Ok (default JNull (List.find has_termination_type evs)).
Proof.
  intros -> Hstatus Hassoc Hdicts.
  unfold check_scheduled_events, raise_for_status. simpl.
  destruct ((400 <=? status) && (status <? 600)) eqn:Hs.
  { apply andb_true_iff in Hs as [?%Z.leb_le ?%Z.ltb_lt]. lia. }
  simpl. destruct fields as [|kv fields]; [done|].
  cbn [truthy negb]. unfold py_in. rewrite Hassoc. cbn [negb].
  cbn [mbind result_bind py_iter].
  rewrite (termination_filter_dicts _ Hdicts), <- head_filter_find.
  by destruct (List.filter has_termination_type evs).
Qed.

(** ** C2 *)

(** C2, as stated, fails.  After e1 has been notified, a poll lists e1
    (Preempt) followed by the new event e2 (Reboot): the first event of a
    termination type whose id is not processed is e2, but the iteration
    notifies nothing, because [check_scheduled_events] hands back e1 only. *)
Lemma later_new_event_is_not_notified :
  ¬ notifies_spec_pick ex_cfg (JStr "rg1") (JStr "vm1")
      (ex_cycle 1010 (events_response [event "Preempt" "e1"; event "Reboot" "e2"])
         (plain_response 200))
      (run ex_cfg (JStr "rg1") (JStr "vm1")
         [ex_cycle 1005 (events_response [event "Preempt" "e1"]) (plain_response 200)]
         ex_state).2
      [event "Preempt" "e1"; event "Reboot" "e2"].
Proof.
  unfold notifies_spec_pick.
  assert (spec_pick
            (processed_events
               (run ex_cfg (JStr "rg1") (JStr "vm1")
                  [ex_cycle 1005 (events_response [event "Preempt" "e1"])
                     (plain_response 200)] ex_state).2)
            [event "Preempt" "e1"; event "Reboot" "e2"]
          = Some (event "Reboot" "e2")) as -> by (vm_compute; reflexivity).
  intros (k & ok & _ & Hn). vm_compute in Hn. discriminate Hn.
Qed.

(** C2, amended.  On a well-formed answer of the scheduled-events endpoint
    (a dict whose "Events" entry is a list of dicts, status not 4xx/5xx) the
    only candidate of the iteration is the first event whose EventType is
    one of Preempt, Terminate, Reboot, Redeploy, whatever is in
    [processed_events]; it is notified exactly when its EventId is not in
    [processed_events]; no other event of the list is considered. *)
Theorem first_termination_event_is_the_candidate cfg rg vm w s status fields evs :
  events_get w = Responded {| status_code := status; json_body := Ok (JObj fields) |} →
  ¬ (400 ≤ status < 600) →
  assoc "Events" fields = Some (JArr evs) →
  Forall (λ e, is_dict e = true) evs →
  check_scheduled_events (events_get w) =
    Ok (default JNull (List.find has_termination_type evs)) ∧
  notifications (actions_of_iteration cfg rg vm w s) =
    match List.find has_termination_type evs with
    | Some e =>
        match event_key e with
        | Ok k => if bool_decide (k ∈ processed_events s) then []
                  else [(k, (send_webhook cfg rg vm (event_post w)).1)]
        | Raise _ => []
        end
    | None => []
    end.
Proof.
  intros Hget Hstatus Hassoc Hdicts.
  pose proof (check_scheduled_events_first w status fields evs
                Hget Hstatus Hassoc Hdicts) as Hcheck.
  split; [done|].
  destruct (iteration_detected cfg rg vm w s _ Hcheck) as [-> _].
  destruct (List.find has_termination_type evs) as [e|] eqn:Hfind; [|done].
  apply find_some in Hfind as [_ He].
  apply has_termination_type_truthy in He as [_ Ht]. simpl. by rewrite Ht.
Qed.

(** An instance: a Freeze event is passed over, the Preempt event after it
    is the candidate, and the Reboot event behind that one is not looked
    at. *)
Lemma first_termination_event_is_the_candidate_witness :
  check_scheduled_events
    (events_response [event "Freeze" "e0"; event "Preempt" "e1"; event "Reboot" "e2"]) =
    Ok (event "Preempt" "e1") ∧
  notifications
    (actions_of_iteration ex_cfg (JStr "rg1") (JStr "vm1")
       (ex_cycle 1005
          (events_response [event "Freeze" "e0"; event "Preempt" "e1"; event "Reboot" "e2"])
          (plain_response 200))
       ex_state) = [(Some (inr "e1"), true)].
Proof.
  apply (first_termination_event_is_the_candidate ex_cfg (JStr "rg1") (JStr "vm1")
           (ex_cycle 1005
              (events_response [event "Freeze" "e0"; event "Preempt" "e1"; event "Reboot" "e2"])
              (plain_response 200))
           ex_state 200
           [("DocumentIncarnation", JNum 1);
            ("Events", JArr [event "Freeze" "e0"; event "Preempt" "e1"; event "Reboot" "e2"])]
           [event "Freeze" "e0"; event "Preempt" "e1"; event "Reboot" "e2"]).
  - reflexivity.
  - lia.
  - reflexivity.
  - repeat constructor.
Defined.

(** ** C3 *)

(** C3: the code departs from the claim.  After three polls that raised
    (counter at 3), a poll that fails with a request exception is swallowed
    by [check_scheduled_events], which returns [None]; the iteration then
    resets the counter to 0 instead of counting the failure. *)
Theorem failed_poll_resets_error_counter :
  consecutive_errors
    (run ex_cfg (JStr "rg1") (JStr "vm1") (take 3 ex_errors) ex_state).2 = 3 ∧
  check_scheduled_events RequestFailed = Ok JNull ∧
  consecutive_errors
    (run ex_cfg (JStr "rg1") (JStr "vm1") ex_errors ex_state).2 = 0.
Proof. vm_compute. done. Qed.

(** ** C5 *)

(** C5, as stated, fails: a 304 answer is not 2xx, 401 or 400, yet
    [send_webhook] returns [True] for it, because [raise_for_status] only
    raises for 4xx and 5xx. *)
Lemma not_modified_counts_as_success :
  classify (send_webhook ex_cfg (JStr "rg1") (JStr "vm1") (plain_response 304))
  ≠ Some (spec_send_result (plain_response 304)).
Proof. vm_compute. discriminate. Qed.

(** C5, amended.  With an API key set, [send_webhook] reports 401 as an
    authentication failure, 400 as a bad request, any other status from 400
    to 599 and any request exception as a network failure, and every other
    status (all of 2xx, and also 1xx and 3xx) as success; it returns [True]
    exactly in the success case, and whether the body of the answer parses
    as JSON has no influence on the verdict. *)
Theorem send_webhook_classification cfg rg vm post :
  key_set (WEBHOOK_API_KEY cfg) = true →
  classify (send_webhook cfg rg vm post) =
    Some (match post with
          | RequestFailed => NetworkFailure
          | Responded r =>
              if status_code r =? 401 then AuthFailure
              else if status_code r =? 400 then BadRequest
              else if (400 <=? status_code r) && (status_code r <? 600)
                   then NetworkFailure
              else Success
          end) ∧
  ((send_webhook cfg rg vm post).1 = true ↔
     classify (send_webhook cfg rg vm post) = Some Success) ∧
  (∀ status body body',
     post = Responded {| status_code := status; json_body := body |} →
     classify (send_webhook cfg rg vm post) =
     classify (send_webhook cfg rg vm
                 (Responded {| status_code := status; json_body := body' |}))).
Proof.
  intros Hkey. unfold send_webhook, raise_for_status. rewrite Hkey. simpl.
  split; [|split].
  - destruct post as [|r]; [done|]. repeat case_match; done.
  - destruct post as [|r]; [done|]. repeat case_match; done.
  - intros status body body' ->. simpl. repeat case_match; done.
Qed.

(** An instance: the webhook answers 401. *)
Lemma send_webhook_classification_witness :
  classify (send_webhook ex_cfg (JStr "rg1") (JStr "vm1") (plain_response 401)) =
    Some AuthFailure.
Proof.
  apply (proj1 (send_webhook_classification ex_cfg (JStr "rg1") (JStr "vm1")
                  (plain_response 401) ltac:(reflexivity))).
Defined.

(** ** C6 *)

(** C6, as stated, fails.  The heartbeat is due (300 s have passed since
    the last one), but the poll is answered with a body whose "Events"
    entry is null, the comprehension raises [TypeError], and the rest of
    the [try] body, heartbeat included, is skipped: no heartbeat is sent
    and [last_heartbeat_time] stays where it was. *)
Lemma heartbeat_skipped_when_poll_raises :
  let w := ex_cycle 1300 (json_response 200 (JObj [("Events", JNull)]))
             (plain_response 200) in
  (inject_Z (heartbeat_interval ex_cfg)
     <= current_time w - last_heartbeat_time ex_state)%Q ∧
  (∀ ok, SendWebhook Heartbeat ok
           ∉ actions_of_iteration ex_cfg (JStr "rg1") (JStr "vm1") w ex_state) ∧
  ¬ (last_heartbeat_time (iteration ex_cfg (JStr "rg1") (JStr "vm1") w ex_state).2
       == current_time w)%Q.
Proof.
  split; [vm_compute; discriminate|]. split.
  - assert (actions_of_iteration ex_cfg (JStr "rg1") (JStr "vm1")
              (ex_cycle 1300 (json_response 200 (JObj [("Events", JNull)]))
                 (plain_response 200)) ex_state
            = [GetScheduledEvents; Sleep 5]) as -> by (vm_compute; reflexivity).
    intros ok Hin. repeat (apply elem_of_cons in Hin as [Hin|Hin]; [done|]).
    by apply elem_of_nil in Hin.
  - vm_compute. discriminate.
Qed.

(** C6, amended.  In every iteration whose [try] body raises no exception,
    if the time elapsed since [last_heartbeat_time] is at least the
    heartbeat interval, then exactly one heartbeat send is made, as the last
    action before the closing sleep, and [last_heartbeat_time] becomes the
    iteration's [current_time], whatever the send returns and whatever
    event was or was not detected and notified before it. *)
Theorem heartbeat_when_due cfg rg vm w s :
  (try_body cfg rg vm w s).1 = Ok tt →
  (inject_Z (heartbeat_interval cfg) <= current_time w - last_heartbeat_time s)%Q →
  (∃ before,
     actions_of_iteration cfg rg vm w s =
       before ++ [SendWebhook Heartbeat (send_webhook cfg rg vm (heartbeat_post w)).1;
                  Sleep (check_interval cfg)] ∧
     ∀ ok, SendWebhook Heartbeat ok ∉ before) ∧
  last_heartbeat_time (iteration cfg rg vm w s).2 = current_time w.
Proof.
  intros Hok Hdue. apply Qle_bool_iff in Hdue.
  unfold actions_of_iteration. unfold_loop.
  repeat case_match; simplify_eq/=; try congruence.
  all: rewrite <- ?app_assoc, ?drop_app_length; split; [|done].
  all: first [ exists [GetScheduledEvents]; split; [reflexivity|]
             | eexists [GetScheduledEvents; _]; split; [reflexivity|] ].
  all: intros ok Hin; repeat (apply elem_of_cons in Hin as [Hin|Hin]; [done|]);
    by apply elem_of_nil in Hin.
Qed.

(** An instance: the heartbeat is due in an iteration that also detects
    an event, and the webhook answers 500 to both sends. *)
Lemma heartbeat_when_due_witness :
  last_heartbeat_time
    (iteration ex_cfg (JStr "rg1") (JStr "vm1")
       (ex_cycle 1300 (events_response [event "Preempt" "e1"]) (plain_response 500))
       ex_state).2 = inject_Z 1300.
Proof.
  apply (proj2 (heartbeat_when_due ex_cfg (JStr "rg1") (JStr "vm1")
                  (ex_cycle 1300 (events_response [event "Preempt" "e1"])
                     (plain_response 500))
                  ex_state ltac:(vm_compute; reflexivity)
                  ltac:(vm_compute; discriminate))).
Defined.

(** ** C7 *)

(** C7.  With a check interval that [time.sleep] accepts (not negative):
    when the [try] body raises and the incremented counter exceeds
    [MAX_CONSECUTIVE_ERRORS] (10), the iteration consists of the poll, one
    sleep of min(300, 2 * check_interval), and the ordinary sleep of
    check_interval that ends every iteration; the counter is left at
    10 // 2 = 5, not at zero, and the loop goes on. *)
Theorem backoff_after_too_many_errors cfg rg vm w s e s1 :
  0 ≤ check_interval cfg →
  try_body cfg rg vm w s = (Raise e, s1) →
  consecutive_errors s1 + 1 > MAX_CONSECUTIVE_ERRORS →
  actions_of_iteration cfg rg vm w s =
    [GetScheduledEvents; Sleep (Z.min 300 (2 * check_interval cfg));
     Sleep (check_interval cfg)] ∧
  consecutive_errors (iteration cfg rg vm w s).2 = 5 ∧
  (iteration cfg rg vm w s).1 = Ok tt.
Proof.
  intros Hinterval Hraise Hmany. unfold actions_of_iteration. unfold iteration.
  rewrite Hraise. unfold_loop.
  repeat case_match; simplify_eq/=;
    repeat match goal with
      | H : (_ <? _) = true |- _ => apply Z.ltb_lt in H
      | H : (_ >? _) = false |- _ => apply Z.gtb_ltb, Z.ltb_ge in H
      end;
    try (unfold MAX_CONSECUTIVE_ERRORS in *; lia).
  all: rewrite <- ?app_assoc, ?drop_app_length;
    by rewrite (Z.mul_comm 2 (check_interval cfg)).
Qed.

(** An instance: the eleventh poll in a row that raises, with the default
    check interval of 5 seconds. *)
Lemma backoff_after_too_many_errors_witness :
  actions_of_iteration ex_cfg (JStr "rg1") (JStr "vm1")
    (ex_cycle 1300 (json_response 200 (JObj [("Events", JNull)])) (plain_response 200))
    ex_state_ten_errors =
    [GetScheduledEvents; Sleep 10; Sleep 5] ∧
  consecutive_errors
    (iteration ex_cfg (JStr "rg1") (JStr "vm1")
       (ex_cycle 1300 (json_response 200 (JObj [("Events", JNull)])) (plain_response 200))
       ex_state_ten_errors).2 = 5 ∧
  (iteration ex_cfg (JStr "rg1") (JStr "vm1")
     (ex_cycle 1300 (json_response 200 (JObj [("Events", JNull)])) (plain_response 200))
     ex_state_ten_errors).1 = Ok tt.
Proof.
  apply (backoff_after_too_many_errors ex_cfg (JStr "rg1") (JStr "vm1")
           (ex_cycle 1300 (json_response 200 (JObj [("Events", JNull)]))
              (plain_response 200))
           ex_state_ten_errors TypeError
           {| processed_events := ∅; consecutive_errors := 10;
              last_heartbeat_time := inject_Z 1000; trace := [GetScheduledEvents] |}).
  - vm_compute; discriminate.
  - vm_compute; reflexivity.
  - vm_compute; reflexivity.
Defined.

(** ** C4 *)








(** ** C10 *)

(** C10.  An event without an EventId (the [get] yields [None]) is looked
    up and recorded under [None].  Once such an event has been notified
    successfully, [None] is in [processed_events] for good: whatever
    happens in later iterations, no notification is sent under [None]
    again, and an iteration that detects any event without an EventId sends
    no notification at all. *)
Theorem events_without_id_share_one_key cfg rg vm w s e :
  check_scheduled_events (events_get w) = Ok e →
  e ≠ JNull →
  py_get e "EventId" JNull = Ok JNull →
  None ∉ processed_events s →
  (send_webhook cfg rg vm (event_post w)).1 = true →
  notifications (actions_of_iteration cfg rg vm w s) = [(None, true)] ∧
  ∀ ws,
    None ∈ processed_events (run cfg rg vm ws (iteration cfg rg vm w s).2).2 ∧
    (∀ ok, SendWebhook (Notification None) ok
             ∉ actions_of_run cfg rg vm ws (iteration cfg rg vm w s).2) ∧
    (∀ w' e',
       check_scheduled_events (events_get w') = Ok e' →
       py_get e' "EventId" JNull = Ok JNull →
       notifications
         (actions_of_iteration cfg rg vm w'
            (run cfg rg vm ws (iteration cfg rg vm w s).2).2) = []).
Proof.
  intros Hcheck Hnull Hid Hnew Hsent.
  assert (∀ x, py_get x "EventId" JNull = Ok JNull → event_key x = Ok None) as Hnone.
  { intros x Hx. unfold event_key. by rewrite Hx. }
  destruct (iteration_detected cfg rg vm w s e Hcheck) as [Hn Hp].
  destruct (check_scheduled_events_returns _ _ Hcheck) as [?|Hty]; [done|].
  apply has_termination_type_truthy in Hty as [_ Ht].
  rewrite Ht, (Hnone _ Hid), Hsent, bool_decide_eq_false_2 in Hn by done.
  split; [done|]. intros ws.
  rewrite Hn in Hp. cbn [mark] in Hp.
  destruct (run_notifications cfg rg vm ws (iteration cfg rg vm w s).2) as [Hs2 Hp2].
  assert (None ∈ processed_events (run cfg rg vm ws (iteration cfg rg vm w s).2).2) as Hin.
  { rewrite Hp2. apply mark_mono. rewrite Hp.
    by apply elem_of_union_l, elem_of_singleton. }
  split; [done|]. split.
  - intros ok Hsend. apply notification_elem in Hsend.
    apply (sends_ok_not_in _ _ _ _ Hs2 Hsend). rewrite Hp.
    by apply elem_of_union_l, elem_of_singleton.
  - intros w' e' Hcheck' Hid'.
    destruct (iteration_detected cfg rg vm w'
                (run cfg rg vm ws (iteration cfg rg vm w s).2).2 e' Hcheck') as [-> _].
    rewrite (Hnone _ Hid'), bool_decide_eq_true_2 by done. by destruct (truthy e').
Qed.

(** An instance: a Preempt event without an EventId, the webhook answering
    200. *)
Lemma events_without_id_share_one_key_witness :
  notifications
    (actions_of_iteration ex_cfg (JStr "rg1") (JStr "vm1")
       (ex_cycle 1005 (events_response [anonymous_event "Preempt"]) (plain_response 200))
       ex_state) = [(None, true)] ∧
  ∀ ws,
    None ∈ processed_events
      (run ex_cfg (JStr "rg1") (JStr "vm1") ws
         (iteration ex_cfg (JStr "rg1") (JStr "vm1")
            (ex_cycle 1005 (events_response [anonymous_event "Preempt"])
               (plain_response 200)) ex_state).2).2 ∧
    (∀ ok, SendWebhook (Notification None) ok
             ∉ actions_of_run ex_cfg (JStr "rg1") (JStr "vm1") ws
                 (iteration ex_cfg (JStr "rg1") (JStr "vm1")
                    (ex_cycle 1005 (events_response [anonymous_event "Preempt"])
                       (plain_response 200)) ex_state).2) ∧
    (∀ w' e',
       check_scheduled_events (events_get w') = Ok e' →
       py_get e' "EventId" JNull = Ok JNull →
       notifications
         (actions_of_iteration ex_cfg (JStr "rg1") (JStr "vm1") w'
            (run ex_cfg (JStr "rg1") (JStr "vm1") ws
               (iteration ex_cfg (JStr "rg1") (JStr "vm1")
                  (ex_cycle 1005 (events_response [anonymous_event "Preempt"])
                     (plain_response 200)) ex_state).2).2) = []).
Proof.
  apply (events_without_id_share_one_key ex_cfg (JStr "rg1") (JStr "vm1")
           (ex_cycle 1005 (events_response [anonymous_event "Preempt"])
              (plain_response 200))
           ex_state (anonymous_event "Preempt")).
  - reflexivity.
  - discriminate.
  - reflexivity.
  - apply not_elem_of_empty.
  - reflexivity.
Defined.

(** ** Lemmas on the retry loop *)

Lemma identity_loop_done fuel gets rg vm rc tr :
  truthy rg = true → truthy vm = true →
  identity_loop fuel gets (rg, vm, rc) tr = Some (Ok (rg, vm, rc), tr).
Proof. intros Hrg Hvm. destruct fuel; simpl; by rewrite Hrg, Hvm. Qed.

(** Each run of the body either leaves the loop or uses up one of the
    [max_retries] retries, so fuel for the retries that remain is enough. *)
Lemma identity_loop_terminates fuel gets rg vm rc tr :
  (Z.to_nat (max_retries - rc) ≤ fuel)%nat →
  is_Some (identity_loop fuel gets (rg, vm, rc) tr).
Proof.
  revert gets rg vm rc tr.
  induction fuel as [|fuel IH]; intros gets rg vm rc tr Hfuel; simpl.
  - destruct (rc <? max_retries) eqn:Hrc.
    + apply Z.ltb_lt in Hrc. lia.
    + rewrite andb_false_r. eauto.
  - destruct ((negb (truthy rg) || negb (truthy vm)) && (rc <? max_retries)) eqn:Hcond;
      [|eauto].
    apply andb_true_iff in Hcond as [_ Hrc%Z.ltb_lt].
    destruct (get_azure_metadata (gets 0%nat)) as [[rg' vm']|e]; [|eauto].
    destruct (negb (truthy rg') || negb (truthy vm')) eqn:Hfail.
    + apply IH. lia.
    + apply orb_false_iff in Hfail as [Hrg%negb_false_iff Hvm%negb_false_iff].
      rewrite identity_loop_done by done. eauto.
Qed.

Lemma identity_loop_fuel_mono fuel fuel' gets vars tr r :
  identity_loop fuel gets vars tr = Some r → (fuel ≤ fuel')%nat →
  identity_loop fuel' gets vars tr = Some r.
Proof.
  revert fuel' gets vars tr.
  induction fuel as [|fuel IH]; intros fuel' gets [[rg vm] rc] tr; simpl.
  - destruct ((negb (truthy rg) || negb (truthy vm)) && (rc <? max_retries)) eqn:Hcond;
      [done|].
    intros Hr _. destruct fuel'; simpl; by rewrite Hcond.
  - destruct ((negb (truthy rg) || negb (truthy vm)) && (rc <? max_retries)) eqn:Hcond.
    + intros Hr Hle. destruct fuel' as [|fuel']; [lia|]. simpl. rewrite Hcond.
      destruct (get_azure_metadata (gets 0%nat)) as [[rg' vm']|e]; [|done].
      destruct (negb (truthy rg') || negb (truthy vm')); apply IH; (done || lia).
    + intros Hr _. destruct fuel'; simpl; by rewrite Hcond.
Qed.

Lemma attempts_app t1 t2 : attempts (t1 ++ t2) = (attempts t1 + attempts t2)%nat.
Proof. unfold attempts. by rewrite filter_app, length_app. Qed.

(** The loop fetches at most as often as retries remain. *)
Lemma identity_loop_attempts fuel gets rg vm rc tr r tr' :
  identity_loop fuel gets (rg, vm, rc) tr = Some (r, tr') →
  (attempts tr' ≤ attempts tr + Z.to_nat (max_retries - rc))%nat.
Proof.
  revert gets rg vm rc tr.
  induction fuel as [|fuel IH]; intros gets rg vm rc tr; simpl.
  - case_match; intros; simplify_eq. lia.
  - destruct ((negb (truthy rg) || negb (truthy vm)) && (rc <? max_retries)) eqn:Hcond;
      [|intros; simplify_eq; lia].
    apply andb_true_iff in Hcond as [_ Hrc%Z.ltb_lt].
    destruct (get_azure_metadata (gets 0%nat)) as [[rg' vm']|e].
    + destruct (negb (truthy rg') || negb (truthy vm')) eqn:Hfail.
      * intros Hloop%IH. rewrite attempts_app in Hloop.
        change (attempts [GetInstanceInfo; Sleep 2]) with 1%nat in Hloop. lia.
      * apply orb_false_iff in Hfail as [Hrg%negb_false_iff Hvm%negb_false_iff].
        rewrite identity_loop_done by done. intros; simplify_eq.
        rewrite attempts_app. change (attempts [GetInstanceInfo]) with 1%nat. lia.
    + intros; simplify_eq.
      rewrite attempts_app. change (attempts [GetInstanceInfo]) with 1%nat. lia.
Qed.



Lemma main_with_enough_fuel fuel a w :
  (Z.to_nat max_retries ≤ fuel)%nat → main_with fuel a w = main a w.
Proof.
  intros Hfuel. unfold main, main_with.
  destruct (negb (key_set (if key_set (api_key a) then api_key a
                           else getenv_WEBHOOK_API_KEY w))); [done|].
  destruct (identity_loop_terminates (Z.to_nat max_retries) (instance_gets w)
              JNull JNull 0 []) as [r Hr]; [unfold max_retries; lia|].
  by rewrite Hr, (identity_loop_fuel_mono _ fuel _ _ _ _ Hr Hfuel).
Qed.

Lemma main_total a w : is_Some (main a w).
Proof.
  unfold main, main_with.
  destruct (negb (key_set (if key_set (api_key a) then api_key a
                           else getenv_WEBHOOK_API_KEY w))); [eauto|].
  destruct (identity_loop_terminates (Z.to_nat max_retries) (instance_gets w)
              JNull JNull 0 []) as [[[[[rg vm] rc]|e] tr] ->];
    [unfold max_retries; lia|eauto..].
Qed.

Lemma api_key_provided_key_set a w :
  key_set (if key_set (api_key a) then api_key a else getenv_WEBHOOK_API_KEY w)
  = api_key_provided a w.
Proof. unfold api_key_provided. by destruct (key_set (api_key a)) eqn:Hk. Qed.

(** Five fetches that all come back empty-handed. *)
Lemma identity_loop_absent gets :
  (∀ n, get_azure_metadata (gets n) = Ok (JNull, JNull)) →
  identity_loop (Z.to_nat max_retries) gets (JNull, JNull, 0) [] =
    Some (Ok (JNull, JNull, 5),
          [GetInstanceInfo; Sleep 2; GetInstanceInfo; Sleep 2; GetInstanceInfo; Sleep 2;
           GetInstanceInfo; Sleep 2; GetInstanceInfo; Sleep 2]).
Proof.
  intros Habsent. change (Z.to_nat max_retries) with 5%nat.
  do 5 (cbn -[get_azure_metadata]; rewrite Habsent). reflexivity.
Qed.

(** ** C8 *)

(** C8.  Start-up always comes to an end (the retry loop needs no more
    than [max_retries] runs of its body, and more fuel changes nothing);
    it never fetches the instance metadata more than 5 times; and if every
    fetch returns (None, None), then exactly 5 fetches are made, each
    followed by a pause of 2 seconds, after which [main] goes on with the
    host name as vm_name and DEFAULT_RESOURCE_GROUP as resource_group, makes
    the connectivity test and enters the loop. *)
Theorem identity_resolution_terminates :
  (∀ a w, is_Some (main a w)) ∧
  (∀ a w fuel, (Z.to_nat max_retries ≤ fuel)%nat → main_with fuel a w = main a w) ∧
  (∀ a w o, main a w = Some o → (attempts (startup_trace o) ≤ 5)%nat) ∧
  (∀ a w,
     api_key_provided a w = true →
     (∀ n, get_azure_metadata (instance_gets w n) = Ok (JNull, JNull)) →
     ∃ cfg s,
       main a w = Some (Monitoring cfg (JStr DEFAULT_RESOURCE_GROUP)
                          (JStr (gethostname w)) s) ∧
       trace s =
         [GetInstanceInfo; Sleep 2; GetInstanceInfo; Sleep 2; GetInstanceInfo; Sleep 2;
          GetInstanceInfo; Sleep 2; GetInstanceInfo; Sleep 2;
          SendWebhook ConnectivityTest
            (send_webhook cfg (JStr DEFAULT_RESOURCE_GROUP) (JStr (gethostname w))
               (test_post w)).1]).
Proof.
  split; [apply main_total|]. split; [intros; by apply main_with_enough_fuel|]. split.
  - intros a w o. unfold main. generalize (Z.to_nat max_retries). intros fuel.
    unfold main_with.
    case_match; [intros; simplify_eq; simpl; change (attempts []) with 0%nat; lia|].
    destruct (identity_loop fuel (instance_gets w) (JNull, JNull, 0) [])
      as [[[[[rg vm] rc]|e] tr]|] eqn:Hloop; [| |done].
    + apply identity_loop_attempts in Hloop. intros; simplify_eq.
      simpl. rewrite attempts_app. change (attempts []) with 0%nat in Hloop.
      change (attempts [SendWebhook ConnectivityTest _]) with 0%nat.
      unfold max_retries in Hloop. lia.
    + apply identity_loop_attempts in Hloop. intros; simplify_eq.
      simpl. change (attempts []) with 0%nat in Hloop.
      unfold max_retries in Hloop. lia.
  - intros a w Hkey Habsent. unfold main, main_with.
    rewrite api_key_provided_key_set, Hkey, (identity_loop_absent _ Habsent).
    cbn -[send_webhook]. eauto.
Qed.

(** An instance: a machine on which no request gets through. *)
Lemma identity_resolution_terminates_witness :
  ∃ cfg s,
    main ex_args ex_startup_offline =
      Some (Monitoring cfg (JStr "test") (JStr "host1") s) ∧
    trace s =
      [GetInstanceInfo; Sleep 2; GetInstanceInfo; Sleep 2; GetInstanceInfo; Sleep 2;
       GetInstanceInfo; Sleep 2; GetInstanceInfo; Sleep 2;
       SendWebhook ConnectivityTest
         (send_webhook cfg (JStr "test") (JStr "host1") RequestFailed).1].
Proof.
  apply (proj2 (proj2 (proj2 identity_resolution_terminates))
           ex_args ex_startup_offline).
  - reflexivity.
  - intros n. reflexivity.
Defined.

(** ** C9 *)




(** * Further properties of the code *)

(** ** get_azure_metadata *)

(** X1.  Whatever the metadata endpoint does, [get_azure_metadata] returns
    (None, None) or a pair of two truthy values, never a pair with only one
    of them; and an exception that leaves it is never a
    [RequestException]. *)
Theorem get_azure_metadata_all_or_nothing get :
  match get_azure_metadata get with
  | Ok (resource_group, vm_name) =>
      (resource_group = JNull ∧ vm_name = JNull) ∨
      (truthy resource_group = true ∧ truthy vm_name = true)
  | Raise e => e ≠ RequestException
  end.
Proof.
  unfold get_azure_metadata, except_RequestException, mbind, result_bind,
    requests_call.
  repeat case_match; simplify_eq; auto.
  right.
  match goal with H : _ || _ = false |- _ =>
    apply orb_false_iff in H as [?%negb_false_iff ?%negb_false_iff] end.
  done.
Qed.

(** X2.  A request that fails, an answer with a 4xx or 5xx status, and a
    body whose decoding raises a [RequestException] all give (None, None):
    none of them raises. *)
Theorem get_azure_metadata_unreachable get :
  (get = RequestFailed ∨
   (∃ r, get = Responded r ∧ 400 ≤ status_code r < 600) ∨
   (∃ r, get = Responded r ∧ json_body r = Raise RequestException)) →
  get_azure_metadata get = Ok (JNull, JNull).
Proof.
  intros [->|[(r & -> & Hs)|(r & -> & Hbody)]]; [done| |].
  - unfold get_azure_metadata, raise_for_status. simpl.
    assert ((400 <=? status_code r) && (status_code r <? 600) = true) as ->; [|done].
    apply andb_true_iff. split; [apply Z.leb_le|apply Z.ltb_lt]; lia.
  - unfold get_azure_metadata, raise_for_status. simpl.
    destruct ((400 <=? status_code r) && (status_code r <? 600)); [done|].
    simpl. by rewrite Hbody.
Qed.

(** An instance: the endpoint answers 404. *)
Lemma get_azure_metadata_unreachable_witness :
  get_azure_metadata (plain_response 404) = Ok (JNull, JNull).
Proof.
  apply (get_azure_metadata_unreachable (plain_response 404)).
  right; left. eexists; split; [reflexivity|]. simpl; lia.
Defined.

(** X3.  On an answer that passes [raise_for_status] and whose body is a
    dict in which "compute" is a dict, the function returns the compute
    entry's resourceGroupName and name, in this order and unchanged, when
    both are present and truthy, and (None, None) when either is missing,
    null or empty.  A body without "compute" counts as an empty compute. *)
Theorem get_azure_metadata_reads_compute status fields compute :
  status_ok status = true →
  default (JObj []) (assoc "compute" fields) = JObj compute →
  get_azure_metadata
    (Responded {| status_code := status; json_body := Ok (JObj fields) |}) =
    if truthy (field "name" compute) && truthy (field "resourceGroupName" compute)
    then Ok (field "resourceGroupName" compute, field "name" compute)
    else Ok (JNull, JNull).
Proof.
  intros Hstatus Hcompute.
  unfold get_azure_metadata, raise_for_status, status_ok, field in *.
  apply negb_true_iff in Hstatus. simpl. rewrite Hstatus. simpl.
  destruct (assoc "compute" fields) as [c|]; simpl in Hcompute; simplify_eq; simpl.
  - destruct (assoc "name" compute) as [n|];
      destruct (assoc "resourceGroupName" compute) as [g|]; simpl;
      try destruct (truthy n); try destruct (truthy g); done.
  - done.
Qed.

(** An instance: an answer with a name but an empty resource group. *)
Lemma get_azure_metadata_reads_compute_witness :
  get_azure_metadata
    (json_response 200
       (JObj [("compute", JObj [("name", JStr "vm1"); ("resourceGroupName", JStr "")])]))
  = Ok (JNull, JNull).
Proof.
  apply (get_azure_metadata_reads_compute 200
           [("compute", JObj [("name", JStr "vm1"); ("resourceGroupName", JStr "")])]
           [("name", JStr "vm1"); ("resourceGroupName", JStr "")]).
  - reflexivity.
  - reflexivity.
Defined.

(** ** check_scheduled_events *)

(** X4.  [check_scheduled_events] returns [None], without raising, when the
    request fails, when the status is 4xx or 5xx, when decoding the body
    raises a [RequestException], when the body is falsy (null, an empty
    dict, ...), when it is a dict without an "Events" key, and when
    "Events" is an empty list. *)
Theorem check_scheduled_events_nothing get :
  (get = RequestFailed ∨
   (∃ r, get = Responded r ∧ 400 ≤ status_code r < 600) ∨
   (∃ r, get = Responded r ∧ json_body r = Raise RequestException) ∨
   (∃ r j, get = Responded r ∧ json_body r = Ok j ∧ truthy j = false) ∨
   (∃ r fields, get = Responded r ∧ json_body r = Ok (JObj fields) ∧
                assoc "Events" fields = None) ∨
   (∃ r fields, get = Responded r ∧ json_body r = Ok (JObj fields) ∧
                assoc "Events" fields = Some (JArr []))) →
  check_scheduled_events get = Ok JNull.
Proof.
  unfold check_scheduled_events, raise_for_status.
  intros [->|[(r & -> & Hs)|[(r & -> & Hb)|[(r & j & -> & Hb & Hj)|
          [(r & fields & -> & Hb & Hev)|(r & fields & -> & Hb & Hev)]]]]];
    simpl; try done.
  - assert ((400 <=? status_code r) && (status_code r <? 600) = true) as ->; [|done].
    apply andb_true_iff. split; [apply Z.leb_le|apply Z.ltb_lt]; lia.
  - case_match; [done|]. simpl. by rewrite Hb.
  - case_match; [done|]. simpl. rewrite Hb. simpl. by rewrite Hj.
  - case_match; [done|]. simpl. rewrite Hb. simpl.
    destruct fields; [done|]. cbn [truthy negb]. unfold py_in. by rewrite Hev.
  - case_match; [done|]. simpl. rewrite Hb. simpl.
    destruct fields; [done|]. cbn [truthy negb]. unfold py_in, py_get.
    by rewrite Hev.
Qed.

(** An instance: a 200 answer whose body is an empty dict. *)
Lemma check_scheduled_events_nothing_witness :
  check_scheduled_events (json_response 200 (JObj [])) = Ok JNull.
Proof.
  apply (check_scheduled_events_nothing (json_response 200 (JObj []))).
  do 3 right. left. do 2 eexists. split; [reflexivity|]. split; reflexivity.
Defined.

Lemma termination_filter_subset evs kept :
  termination_filter evs = Ok kept → kept ⊆ evs.
Proof.
  revert kept. induction evs as [|e evs IH]; intros kept; simpl.
  - intros; simplify_eq. done.
  - unfold mbind, result_bind.
    destruct (py_get e "EventType" JNull) as [ty|]; [|done].
    destruct (termination_filter evs) as [kept'|]; [|done].
    intros; simplify_eq. specialize (IH _ eq_refl).
    destruct (is_termination_type ty).
    + intros x [->|Hx]%elem_of_cons; [left|right; by apply IH].
    + intros x Hx. right. by apply IH.
Qed.

(** X5.  [check_scheduled_events] never makes an event up and never hands
    back an event of another type: what it returns is [None], or a
    non-empty dict that is an element of the answer's "Events" list and
    whose EventType is Preempt, Terminate, Reboot or Redeploy.  An
    exception that leaves it is never a [RequestException]. *)
Theorem check_scheduled_events_result get :
  match check_scheduled_events get with
  | Ok e =>
      e = JNull ∨
      (is_dict e = true ∧ truthy e = true ∧ has_termination_type e = true ∧
       ∃ r fields evs,
         get = Responded r ∧ json_body r = Ok (JObj fields) ∧
         assoc "Events" fields = Some (JArr evs) ∧ e ∈ evs)
  | Raise e => e ≠ RequestException
  end.
Proof.
  destruct (check_scheduled_events get) as [e|e] eqn:Hcheck.
  - destruct (check_scheduled_events_returns _ _ Hcheck) as [?|Hty]; [by left|].
    right. destruct (has_termination_type_truthy _ Hty) as [Hd Ht].
    do 3 (split; [done|]).
    assert (e ≠ JNull) as Hnull by (by intros ->).
    unfold check_scheduled_events, except_RequestException, mbind, result_bind,
      requests_call in Hcheck.
    repeat case_match; simplify_eq.
    match goal with
    | Hj : py_get ?j "Events" (JArr []) = Ok ?events,
      Hi : py_iter ?events = Ok ?items,
      Hk : termination_filter ?items = Ok (e :: _),
      Hp : py_in "Events" ?j = Ok _ |- _ =>
        pose proof (termination_filter_subset _ _ Hk) as Hsub;
        assert (e ∈ items) as Hitem by (apply Hsub; left);
        destruct j as [| | | | |fields]; simplify_eq/=;
        destruct (assoc "Events" fields) as [events'|] eqn:Hev; simplify_eq/=;
        destruct events' as [| | |str|evs|kvs]; simplify_eq/=
    end.
    + exfalso. clear -Hitem Hd. induction str as [|c str IH]; simpl in Hitem.
      * by apply elem_of_nil in Hitem.
      * apply elem_of_cons in Hitem as [->|?]; [done|auto].
    + eauto 10.
    + exfalso. apply list_elem_of_fmap in Hitem as (kv & -> & _). done.
  - intros ->. revert Hcheck.
    unfold check_scheduled_events, except_RequestException.
    repeat case_match; intros; simplify_eq.
Qed.

(** ** send_webhook *)

(** X6.  [send_webhook] returns [True] exactly when an API key is set and
    the POST is answered with a status outside 400-599; in particular never
    without a key and never when the request fails.  And it attempts the
    POST (logging that it sends) exactly when a key is set. *)
Theorem send_webhook_success_iff cfg rg vm post :
  ((send_webhook cfg rg vm post).1 = true ↔
     key_set (WEBHOOK_API_KEY cfg) = true ∧
     ∃ r, post = Responded r ∧ status_ok (status_code r) = true) ∧
  ((INFO, "Sending webhook notification") ∈ (send_webhook cfg rg vm post).2 ↔
     key_set (WEBHOOK_API_KEY cfg) = true).
Proof.
  unfold send_webhook, raise_for_status, status_ok.
  destruct (key_set (WEBHOOK_API_KEY cfg)); simpl.
  - split.
    + destruct post as [|r]; simpl.
      * split; [done|]. by intros [_ (r & ? & _)].
      * destruct (status_code r =? 401) eqn:H401; simpl.
        { apply Z.eqb_eq in H401. split; [done|].
          intros [_ (r' & ? & Hr')]; simplify_eq. by rewrite H401 in Hr'. }
        destruct (status_code r =? 400) eqn:H400; simpl.
        { apply Z.eqb_eq in H400. split; [done|].
          intros [_ (r' & ? & Hr')]; simplify_eq. by rewrite H400 in Hr'. }
        destruct ((400 <=? status_code r) && (status_code r <? 600)) eqn:Hs; simpl.
        { split; [done|]. intros [_ (r' & ? & Hr')]; simplify_eq.
          by rewrite Hs in Hr'. }
        split; [|done]. intros _. split; [done|]. exists r. by rewrite Hs.
    + split; [done|]. intros _.
      destruct post as [|r]; [by left|]. repeat case_match; by left.
  - split.
    + split; [done|]. by intros [? _].
    + split; [|done]. intros Hin. apply list_elem_of_singleton in Hin. done.
Qed.

(** An instance: a key is set and the webhook answers 204. *)
Lemma send_webhook_success_iff_witness :
  (send_webhook ex_cfg (JStr "rg1") (JStr "vm1") (plain_response 204)).1 = true.
Proof.
  apply (proj2 (proj1 (send_webhook_success_iff ex_cfg (JStr "rg1") (JStr "vm1")
                         (plain_response 204)))).
  split; [reflexivity|]. eexists; split; reflexivity.
Defined.

(** ** Start-up of main *)


(** X7.  When [main] reaches the loop, the API key it runs with is not
    empty, and it is the one of the command line whenever that one is not
    empty, whatever the environment holds; the check interval and the
    heartbeat interval are never zero (a zero on the command line is
    replaced by the defaults 5 and 300). *)
Theorem main_configuration a w cfg rg vm s :
  main a w = Some (Monitoring cfg rg vm s) →
  key_set (WEBHOOK_API_KEY cfg) = true ∧
  (key_set (api_key a) = true → WEBHOOK_API_KEY cfg = api_key a) ∧
  (key_set (api_key a) = false → WEBHOOK_API_KEY cfg = getenv_WEBHOOK_API_KEY w) ∧
  check_interval cfg ≠ 0 ∧ heartbeat_interval cfg ≠ 0 ∧
  (interval a = 0 → check_interval cfg = CHECK_INTERVAL) ∧
  (heartbeat a = 0 → heartbeat_interval cfg = HEARTBEAT_INTERVAL).
Proof.
  unfold main. generalize (Z.to_nat max_retries). intros fuel.
  unfold main_with. intros Hmain.
  destruct (negb (key_set (if key_set (api_key a) then api_key a
                           else getenv_WEBHOOK_API_KEY w))) eqn:Hkey; [done|].
  apply negb_false_iff in Hkey.
  destruct (identity_loop fuel (instance_gets w) (JNull, JNull, 0) [])
    as [[[[[rg' vm'] rc]|e] tr]|]; simplify_eq. simpl.
  split; [done|]. split; [by intros ->|]. split; [by intros ->|].
  split; [|split; [|split]].
  - destruct (interval a =? 0) eqn:Hi; [done|]. by apply Z.eqb_neq.
  - destruct (heartbeat a =? 0) eqn:Hh; [done|]. by apply Z.eqb_neq.
  - by intros ->.
  - by intros ->.
Qed.

(** An instance: --interval 5 --heartbeat 300 --api-key secret on a
    machine whose metadata service answers. *)
Lemma main_configuration_witness :
  key_set (WEBHOOK_API_KEY ex_cfg) = true ∧
  (key_set (api_key ex_args) = true → WEBHOOK_API_KEY ex_cfg = api_key ex_args) ∧
  (key_set (api_key ex_args) = false →
   WEBHOOK_API_KEY ex_cfg = getenv_WEBHOOK_API_KEY ex_startup) ∧
  check_interval ex_cfg ≠ 0 ∧ heartbeat_interval ex_cfg ≠ 0 ∧
  (interval ex_args = 0 → check_interval ex_cfg = CHECK_INTERVAL) ∧
  (heartbeat ex_args = 0 → heartbeat_interval ex_cfg = HEARTBEAT_INTERVAL).
Proof.
  apply (main_configuration ex_args ex_startup ex_cfg (JStr "rg1") (JStr "vm1") ex_state).
  vm_compute; reflexivity.
Defined.

Lemma identity_loop_retries k fuel gets rc tr rg vm :
  (∀ n, (n < k)%nat → get_azure_metadata (gets n) = Ok (JNull, JNull)) →
  get_azure_metadata (gets k) = Ok (rg, vm) →
  truthy rg = true → truthy vm = true →
  rc + Z.of_nat k < max_retries → (k < fuel)%nat →
  identity_loop fuel gets (JNull, JNull, rc) tr =
    Some (Ok (rg, vm, rc + Z.of_nat k),
          tr ++ concat (replicate k [GetInstanceInfo; Sleep 2]) ++ [GetInstanceInfo]).
Proof.
  revert fuel gets rc tr.
  induction k as [|k IH]; intros fuel gets rc tr Hfail Hok Hrg Hvm Hrc Hfuel;
    (destruct fuel as [|fuel]; [lia|]); simpl.
  - assert ((rc <? max_retries) = true) as -> by (apply Z.ltb_lt; lia).
    rewrite Hok, Hrg, Hvm. simpl. rewrite identity_loop_done by done.
    by rewrite Z.add_0_r.
  - assert ((rc <? max_retries) = true) as -> by (apply Z.ltb_lt; lia).
    rewrite (Hfail 0%nat) by lia. simpl.
    rewrite (IH fuel (λ n, gets (S n)) (rc + 1)); try done; try lia.
    + f_equal. f_equal; [f_equal; f_equal; lia|].
      by rewrite <- !app_assoc.
    + intros n Hn. apply Hfail. lia.
Qed.

(** X8.  If the first [k] fetches (k < 5) return (None, None) and the next
    one returns an identity, then [main] makes exactly k + 1 fetches, pauses
    2 seconds after each of the k failed ones and not after the successful
    one, keeps the identity as fetched (no fallback), makes the connectivity
    test and enters the loop with an empty processed set, an error count of
    zero and the heartbeat clock set to the start time. *)
Theorem identity_resolved_after_retries a w k rg vm :
  api_key_provided a w = true →
  (k < 5)%nat →
  (∀ n, (n < k)%nat → get_azure_metadata (instance_gets w n) = Ok (JNull, JNull)) →
  get_azure_metadata (instance_gets w k) = Ok (rg, vm) →
  truthy rg = true → truthy vm = true →
  ∃ cfg s,
    main a w = Some (Monitoring cfg rg vm s) ∧
    trace s = concat (replicate k [GetInstanceInfo; Sleep 2]) ++
              [GetInstanceInfo;
               SendWebhook ConnectivityTest (send_webhook cfg rg vm (test_post w)).1] ∧
    processed_events s = ∅ ∧ consecutive_errors s = 0 ∧
    last_heartbeat_time s = start_time w.
Proof.
  intros Hkey Hk Hfail Hok Hrg Hvm. unfold main, main_with.
  rewrite api_key_provided_key_set, Hkey. cbn [negb].
  rewrite (identity_loop_retries k _ _ 0 [] rg vm Hfail Hok Hrg Hvm);
    [|unfold max_retries; lia|change (Z.to_nat max_retries) with 5%nat; lia].
  rewrite Hrg, Hvm. cbn [negb]. do 2 eexists. split; [reflexivity|].
  cbn [initial_state trace processed_events consecutive_errors last_heartbeat_time].
  split; [|done]. by rewrite app_nil_l, <- app_assoc.
Qed.

(** An instance: the metadata service fails twice, then answers. *)
Lemma identity_resolved_after_retries_witness :
  ∃ cfg s,
    main ex_args (with_test_post (plain_response 200)
                    {| getenv_WEBHOOK_API_KEY := None;
                       instance_gets := answers_after 2 (instance_response "rg1" "vm1");
                       gethostname := "host1";
                       test_post := RequestFailed;
                       start_time := inject_Z 1000 |})
      = Some (Monitoring cfg (JStr "rg1") (JStr "vm1") s) ∧
    trace s = concat (replicate 2 [GetInstanceInfo; Sleep 2]) ++
              [GetInstanceInfo;
               SendWebhook ConnectivityTest
                 (send_webhook cfg (JStr "rg1") (JStr "vm1") (plain_response 200)).1] ∧
    processed_events s = ∅ ∧ consecutive_errors s = 0 ∧
    last_heartbeat_time s = inject_Z 1000.
Proof.
  apply (identity_resolved_after_retries ex_args
           (with_test_post (plain_response 200)
              {| getenv_WEBHOOK_API_KEY := None;
                 instance_gets := answers_after 2 (instance_response "rg1" "vm1");
                 gethostname := "host1";
                 test_post := RequestFailed;
                 start_time := inject_Z 1000 |})
           2%nat (JStr "rg1") (JStr "vm1")).
  - reflexivity.
  - lia.
  - intros [|[|n]] Hn; [reflexivity|reflexivity|lia].
  - reflexivity.
  - reflexivity.
  - reflexivity.
Defined.





(** ** The monitoring loop *)

Lemma mark_elem P ns k : k ∈ mark P ns ↔ k ∈ P ∨ (k, true) ∈ ns.
Proof.
  revert P. induction ns as [|[k' ok] ns IH]; intros P; simpl.
  - split; [by left|]. intros [?|Hin]; [done|]. by apply elem_of_nil in Hin.
  - rewrite IH, elem_of_cons. destruct ok.
    + rewrite elem_of_union, elem_of_singleton. split.
      * intros [[->|?]|?]; auto.
      * intros [?|[?|?]]; simplify_eq; auto.
    + split.
      * intros [?|?]; auto.
      * intros [?|[?|?]]; simplify_eq; auto.
Qed.

(** X11.  The loop never removes an id from [processed_events]: whatever
    happens during a run, every id processed before it is processed after
    it. *)
Theorem processed_events_only_grows cfg rg vm ws s :
  processed_events s ⊆ processed_events (run cfg rg vm ws s).2.
Proof.
  destruct (run_notifications cfg rg vm ws s) as [_ ->]. apply mark_mono.
Qed.

(** X12.  From the entry of the loop on, an id is in [processed_events]
    exactly when the trace holds a notification for it that succeeded:
    nothing else ever puts an id into the set. *)
Theorem processed_iff_notified a w0 cfg rg vm s0 ws k :
  main a w0 = Some (Monitoring cfg rg vm s0) →
  k ∈ processed_events (run cfg rg vm ws s0).2 ↔
  SendWebhook (Notification k) true ∈ trace (run cfg rg vm ws s0).2.
Proof.
  intros Hmain.
  destruct (main_monitoring _ _ _ _ _ _ Hmain) as (Hp0 & Hn0 & _).
  destruct (run_notifications cfg rg vm ws s0) as [_ ->].
  rewrite mark_elem, Hp0, notification_elem, run_trace, notifications_app, Hn0.
  simpl. split; [|by right]. intros [Hin|?]; [|done].
  by apply not_elem_of_empty in Hin.
Qed.

(** An instance: after e1 has been notified, it is in the set. *)
Lemma processed_iff_notified_witness :
  Some (inr "e1")
    ∈ processed_events (run ex_cfg (JStr "rg1") (JStr "vm1") ex_repeat ex_state).2.
Proof.
  apply (proj2 (processed_iff_notified ex_args ex_startup ex_cfg (JStr "rg1")
                  (JStr "vm1") ex_state ex_repeat (Some (inr "e1"))
                  ltac:(vm_compute; reflexivity))).
  vm_compute. apply list_elem_of_In. vm_compute. tauto.
Defined.

(** X13.  Every iteration has the same shape: it polls the scheduled
    events exactly once, first; then it makes at most one notification,
    then at most one heartbeat, then at most one backoff sleep, and it ends
    with the closing sleep unless the backoff sleep raised.  It never
    fetches the instance metadata and never repeats the connectivity test.
    A backoff sleep only occurs in an iteration that sent nothing. *)
Theorem iteration_shape cfg rg vm w s :
  ∃ notif hb backoff closing,
    actions_of_iteration cfg rg vm w s =
      iteration_actions cfg notif hb backoff closing ∧
    (backoff = true → notif = None ∧ hb = None) ∧
    (closing = false → backoff = true ∧ check_interval cfg < 0).
Proof.
  unfold actions_of_iteration, iteration_actions. unfold_loop.
  repeat case_match; simplify_eq/=; rewrite <- ?app_assoc, ?drop_app_length;
    repeat match goal with
      | H : (_ <? _) = true |- _ => apply Z.ltb_lt in H
      end.
  all: first
    [ by (exists None, None, false, true)
    | by (eexists (Some (_, _)), None, false, true)
    | by (eexists None, (Some _), false, true)
    | by (eexists (Some (_, _)), (Some _), false, true)
    | by (exists None, None, true, true)
    | (exists None, None, true, false); split; [reflexivity|];
      split; [done|]; intros _; split; [done|]; lia ].
Qed.

(** An iteration whose [try] body raised, or in which the heartbeat is not
    due, sends no heartbeat and leaves the heartbeat clock alone. *)
Lemma iteration_without_heartbeat cfg rg vm w s :
  (try_body cfg rg vm w s).1 ≠ Ok tt ∨
  ¬ (inject_Z (heartbeat_interval cfg) <= current_time w - last_heartbeat_time s)%Q →
  (∀ ok, SendWebhook Heartbeat ok ∉ actions_of_iteration cfg rg vm w s) ∧
  last_heartbeat_time (iteration cfg rg vm w s).2 = last_heartbeat_time s.
Proof.
  intros Hno.
  assert ((try_body cfg rg vm w s).1 ≠ Ok tt ∨
          Qle_bool (inject_Z (heartbeat_interval cfg))
            (current_time w - last_heartbeat_time s) = false) as Hno'.
  { destruct Hno as [?|Hlate]; [by left|right].
    destruct (Qle_bool _ _) eqn:Hb; [|done]. by apply Qle_bool_iff in Hb. }
  clear Hno. revert Hno'.
  unfold actions_of_iteration. unfold_loop.
  repeat case_match; simplify_eq/=; rewrite <- ?app_assoc, ?drop_app_length;
    intros [?|?]; try congruence; try done.
  all: split; [|done].
  all: intros ok Hin; repeat (apply elem_of_cons in Hin as [Hin|Hin]; [done|]);
    by apply elem_of_nil in Hin.
Qed.


(** An iteration in which the heartbeat is due and whose [try] body does
    not raise sets the heartbeat clock to its own time. *)
Lemma iteration_with_heartbeat cfg rg vm w s :
  (try_body cfg rg vm w s).1 = Ok tt →
  (inject_Z (heartbeat_interval cfg) <= current_time w - last_heartbeat_time s)%Q →
  last_heartbeat_time (iteration cfg rg vm w s).2 = current_time w.
Proof.
  intros Hok Hdue. apply Qle_bool_iff in Hdue. unfold_loop.
  repeat case_match; simplify_eq/=; congruence.
Qed.

(** X14.  No heartbeat before its time, and none from an iteration whose
    [try] body raised: in both cases no heartbeat send is made and
    [last_heartbeat_time] keeps its value. *)
Theorem no_heartbeat_unless_due cfg rg vm w s :
  (try_body cfg rg vm w s).1 ≠ Ok tt ∨
  ¬ (inject_Z (heartbeat_interval cfg) <= current_time w - last_heartbeat_time s)%Q →
  (∀ ok, SendWebhook Heartbeat ok ∉ actions_of_iteration cfg rg vm w s) ∧
  last_heartbeat_time (iteration cfg rg vm w s).2 = last_heartbeat_time s.
Proof. apply iteration_without_heartbeat. Qed.

(** An instance: 5 seconds after the last heartbeat, with an interval of
    300. *)
Lemma no_heartbeat_unless_due_witness :
  (∀ ok, SendWebhook Heartbeat ok
           ∉ actions_of_iteration ex_cfg (JStr "rg1") (JStr "vm1")
               (ex_cycle 1005 (events_response [event "Preempt" "e1"])
                  (plain_response 200)) ex_state) ∧
  last_heartbeat_time
    (iteration ex_cfg (JStr "rg1") (JStr "vm1")
       (ex_cycle 1005 (events_response [event "Preempt" "e1"]) (plain_response 200))
       ex_state).2 = last_heartbeat_time ex_state.
Proof.
  apply (no_heartbeat_unless_due ex_cfg (JStr "rg1") (JStr "vm1")
           (ex_cycle 1005 (events_response [event "Preempt" "e1"]) (plain_response 200))
           ex_state).
  right. vm_compute. intros H. apply H. reflexivity.
Defined.


(** X15.  With a check interval that [time.sleep] accepts, the error
    counter stays between 0 and [MAX_CONSECUTIVE_ERRORS] from one iteration
    to the next: the handler brings it back to 5 as soon as it passes 10. *)
Theorem consecutive_errors_bounded cfg rg vm ws s :
  0 ≤ check_interval cfg →
  0 ≤ consecutive_errors s ≤ MAX_CONSECUTIVE_ERRORS →
  0 ≤ consecutive_errors (run cfg rg vm ws s).2 ≤ MAX_CONSECUTIVE_ERRORS.
Proof.
  intros Hinterval. revert s. induction ws as [|w ws IH]; intros s Hs; [done|].
  rewrite run_cons.
  assert (0 ≤ consecutive_errors (iteration cfg rg vm w s).2 ≤ MAX_CONSECUTIVE_ERRORS)
    as Hstep.
  { clear IH. revert Hs. unfold MAX_CONSECUTIVE_ERRORS. unfold_loop.
    repeat case_match; simplify_eq/=;
      repeat match goal with
        | H : (_ <? _) = true |- _ => apply Z.ltb_lt in H
        | H : (_ >? _) = false |- _ => apply Z.gtb_ltb, Z.ltb_ge in H
        end;
      unfold MAX_CONSECUTIVE_ERRORS in *; try change (10 `div` 2) with 5; lia. }
  destruct (iteration cfg rg vm w s) as [[[]|e] s']; simpl in *; [by apply IH|done].
Qed.

(** An instance: three raising polls and a failing one from the entry
    state. *)
Lemma consecutive_errors_bounded_witness :
  0 ≤ consecutive_errors
        (run ex_cfg (JStr "rg1") (JStr "vm1") ex_errors ex_state).2
    ≤ MAX_CONSECUTIVE_ERRORS.
Proof.
  apply (consecutive_errors_bounded ex_cfg (JStr "rg1") (JStr "vm1") ex_errors ex_state).
  - vm_compute; discriminate.
  - vm_compute; split; discriminate.
Defined.



(** X17.  With a negative check interval the loop does not survive its
    first iteration: the poll is made, but a [time.sleep] raises
    [ValueError] outside the [try], the exception leaves the loop, and no
    later iteration runs. *)
Theorem negative_interval_ends_the_loop cfg rg vm w ws s :
  check_interval cfg < 0 →
  (iteration cfg rg vm w s).1 = Raise ValueError ∧
  run cfg rg vm (w :: ws) s = iteration cfg rg vm w s ∧
  ∃ rest, actions_of_run cfg rg vm (w :: ws) s = GetScheduledEvents :: rest ∧
          GetScheduledEvents ∉ rest.
Proof.
  intros Hneg.
  assert ((iteration cfg rg vm w s).1 = Raise ValueError) as Hraise.
  { unfold_loop.
    repeat case_match; simplify_eq/=; try done;
      repeat match goal with
        | H : (_ <? _) = false |- _ => apply Z.ltb_ge in H
        end; lia. }
  split; [done|]. split.
  - rewrite run_cons. destruct (iteration cfg rg vm w s) as [[[]|e] s']; by simplify_eq/=.
  - rewrite actions_of_run_cons, Hraise, app_nil_r. clear Hraise.
    unfold actions_of_iteration. unfold_loop.
    repeat case_match; simplify_eq/=; rewrite <- ?app_assoc, ?drop_app_length;
      (eexists; split; [reflexivity|]);
      intros Hin; repeat (apply elem_of_cons in Hin as [Hin|Hin]; [done|]);
      by apply elem_of_nil in Hin.
Qed.

(** An instance: --interval -1. *)
Lemma negative_interval_ends_the_loop_witness :
  (iteration ex_cfg_negative (JStr "rg1") (JStr "vm1")
     (ex_cycle 1005 (events_response []) (plain_response 200)) ex_state).1
    = Raise ValueError ∧
  run ex_cfg_negative (JStr "rg1") (JStr "vm1")
    (ex_cycle 1005 (events_response []) (plain_response 200) :: ex_repeat) ex_state =
  iteration ex_cfg_negative (JStr "rg1") (JStr "vm1")
    (ex_cycle 1005 (events_response []) (plain_response 200)) ex_state ∧
  ∃ rest,
    actions_of_run ex_cfg_negative (JStr "rg1") (JStr "vm1")
      (ex_cycle 1005 (events_response []) (plain_response 200) :: ex_repeat) ex_state
      = GetScheduledEvents :: rest ∧
    GetScheduledEvents ∉ rest.
Proof.
  apply (negative_interval_ends_the_loop ex_cfg_negative (JStr "rg1") (JStr "vm1")
           (ex_cycle 1005 (events_response []) (plain_response 200)) ex_repeat ex_state).
  vm_compute; reflexivity.
Defined.

(** X18.  A detected event whose EventId cannot be hashed (a JSON list or
    dict) is never notified: the membership test raises after the counter
    has been reset, so the iteration sends nothing (no notification, no
    heartbeat), leaves [processed_events] alone and ends with the counter
    at 1, whatever it was before. *)
Theorem unhashable_event_id_is_never_notified cfg rg vm w s e x :
  check_scheduled_events (events_get w) = Ok e →
  truthy e = true →
  event_key e = Raise x →
  actions_of_iteration cfg rg vm w s =
    [GetScheduledEvents; Sleep (check_interval cfg)] ∧
  processed_events (iteration cfg rg vm w s).2 = processed_events s ∧
  consecutive_errors (iteration cfg rg vm w s).2 = 1.
Proof.
  intros Hcheck Ht Hkey. unfold actions_of_iteration, event_key in *. unfold_loop.
  rewrite Hcheck, Ht. clear Hcheck.
  destruct e as [| | | | |fields]; cbn [py_get] in *; try done.
  all: repeat case_match; simplify_eq/=; rewrite <- ?app_assoc, ?drop_app_length;
    try done; try congruence.
Qed.

(** An instance: an event whose EventId is a list. *)
Lemma unhashable_event_id_is_never_notified_witness :
  actions_of_iteration ex_cfg (JStr "rg1") (JStr "vm1")
    (ex_cycle 1300 (events_response [ex_event_list_id]) (plain_response 200)) ex_state =
    [GetScheduledEvents; Sleep (check_interval ex_cfg)] ∧
  processed_events
    (iteration ex_cfg (JStr "rg1") (JStr "vm1")
       (ex_cycle 1300 (events_response [ex_event_list_id]) (plain_response 200))
       ex_state).2 = processed_events ex_state ∧
  consecutive_errors
    (iteration ex_cfg (JStr "rg1") (JStr "vm1")
       (ex_cycle 1300 (events_response [ex_event_list_id]) (plain_response 200))
       ex_state).2 = 1.
Proof.
  apply (unhashable_event_id_is_never_notified ex_cfg (JStr "rg1") (JStr "vm1")
           (ex_cycle 1300 (events_response [ex_event_list_id]) (plain_response 200))
           ex_state ex_event_list_id TypeError).
  - reflexivity.
  - reflexivity.
  - reflexivity.
Defined.

(** X19.  A poll whose events are all of other types (Freeze, or no
    EventType at all) is a quiet one: [check_scheduled_events] returns
    [None], no notification is sent, [processed_events] is unchanged and
    the error counter is back at 0. *)
Theorem other_event_types_are_ignored cfg rg vm w s status fields evs :
  events_get w = Responded {| status_code := status; json_body := Ok (JObj fields) |} →
  status_ok status = true →
  assoc "Events" fields = Some (JArr evs) →
  Forall (λ e, is_dict e = true ∧ has_termination_type e = false) evs →
  check_scheduled_events (events_get w) = Ok JNull ∧
  notifications (actions_of_iteration cfg rg vm w s) = [] ∧
  processed_events (iteration cfg rg vm w s).2 = processed_events s ∧
  consecutive_errors (iteration cfg rg vm w s).2 = 0.
Proof.
  intros Hget Hstatus Hassoc Hall.
  assert (check_scheduled_events (events_get w) = Ok JNull) as Hcheck.
  { rewrite (check_scheduled_events_first w status fields evs Hget); [| |done|].
    - assert (List.find has_termination_type evs = None) as ->; [|done].
      clear -Hall. induction Hall as [|e evs [_ He] _ IH]; [done|].
      simpl. by rewrite He.
    - unfold status_ok in Hstatus. apply negb_true_iff, andb_false_iff in Hstatus.
      rewrite Z.leb_gt, Z.ltb_ge in Hstatus. lia.
    - eapply Forall_impl; [exact Hall|]. by intros e [? _]. }
  split; [done|].
  unfold actions_of_iteration. unfold_loop. rewrite Hcheck.
  repeat case_match; simplify_eq/=; rewrite <- ?app_assoc, ?drop_app_length; done.
Qed.

(** An instance: a poll that lists one Freeze event. *)
Lemma other_event_types_are_ignored_witness :
  check_scheduled_events (events_response [event "Freeze" "e0"]) = Ok JNull ∧
  notifications
    (actions_of_iteration ex_cfg (JStr "rg1") (JStr "vm1")
       (ex_cycle 1005 (events_response [event "Freeze" "e0"]) (plain_response 200))
       ex_state) = [] ∧
  processed_events
    (iteration ex_cfg (JStr "rg1") (JStr "vm1")
       (ex_cycle 1005 (events_response [event "Freeze" "e0"]) (plain_response 200))
       ex_state).2 = processed_events ex_state ∧
  consecutive_errors
    (iteration ex_cfg (JStr "rg1") (JStr "vm1")
       (ex_cycle 1005 (events_response [event "Freeze" "e0"]) (plain_response 200))
       ex_state).2 = 0.
Proof.
  apply (other_event_types_are_ignored ex_cfg (JStr "rg1") (JStr "vm1")
           (ex_cycle 1005 (events_response [event "Freeze" "e0"]) (plain_response 200))
           ex_state 200
           [("DocumentIncarnation", JNum 1); ("Events", JArr [event "Freeze" "e0"])]
           [event "Freeze" "e0"]).
  - reflexivity.
  - reflexivity.
  - reflexivity.
  - apply Forall_cons. split; [split; reflexivity|]. by apply Forall_nil.
Defined.

(** X20.  Once the id of an event is processed, polls that keep detecting
    that event stay quiet: however many there are, none of them sends a
    notification, and [processed_events] does not change. *)
Theorem processed_event_stays_quiet cfg rg vm ws s e k :
  event_key e = Ok k →
  k ∈ processed_events s →
  Forall (λ w, check_scheduled_events (events_get w) = Ok e) ws →
  notifications (actions_of_run cfg rg vm ws s) = [] ∧
  processed_events (run cfg rg vm ws s).2 = processed_events s.
Proof.
  intros Hkey Hin Hall. revert s Hin.
  induction Hall as [|w ws Hcheck _ IH]; intros s Hin.
  - unfold actions_of_run. simpl. by rewrite drop_all.
  - rewrite actions_of_run_cons, run_cons, notifications_app.
    destruct (iteration_detected cfg rg vm w s e Hcheck) as [Hn Hp].
    rewrite Hkey, bool_decide_eq_true_2 in Hn by done.
    assert (notifications (actions_of_iteration cfg rg vm w s) = []) as Hnil
      by (by destruct (truthy e)).
    rewrite Hnil in Hp |- *. cbn [mark] in Hp.
    destruct (iteration cfg rg vm w s) as [[[]|e'] s']; simpl in *.
    + destruct (IH s') as [-> ->]; [by rewrite Hp|]. by rewrite Hp.
    + by rewrite Hp.
Qed.

(** An instance: the second poll of [ex_repeat], after e1 was notified. *)
Lemma processed_event_stays_quiet_witness :
  notifications
    (actions_of_run ex_cfg (JStr "rg1") (JStr "vm1") (drop 1 ex_repeat)
       (run ex_cfg (JStr "rg1") (JStr "vm1") (take 1 ex_repeat) ex_state).2) = [] ∧
  processed_events
    (run ex_cfg (JStr "rg1") (JStr "vm1") (drop 1 ex_repeat)
       (run ex_cfg (JStr "rg1") (JStr "vm1") (take 1 ex_repeat) ex_state).2).2 =
  processed_events (run ex_cfg (JStr "rg1") (JStr "vm1") (take 1 ex_repeat) ex_state).2.
Proof.
  apply (processed_event_stays_quiet ex_cfg (JStr "rg1") (JStr "vm1")
           (drop 1 ex_repeat)
           (run ex_cfg (JStr "rg1") (JStr "vm1") (take 1 ex_repeat) ex_state).2
           (event "Preempt" "e1") (Some (inr "e1"))).
  - reflexivity.
  - apply (bool_decide_unpack _). vm_compute. reflexivity.
  - apply Forall_cons. split; [reflexivity|]. by apply Forall_nil.
Defined.

(** X21.  Heartbeats are never closer together than the heartbeat
    interval: after an iteration that sent a heartbeat at its clock reading
    t1, an iteration whose clock reading is less than the interval later
    sends none. *)
Theorem heartbeats_are_spaced cfg rg vm w1 w2 s :
  (try_body cfg rg vm w1 s).1 = Ok tt →
  (inject_Z (heartbeat_interval cfg) <= current_time w1 - last_heartbeat_time s)%Q →
  ¬ (inject_Z (heartbeat_interval cfg) <= current_time w2 - current_time w1)%Q →
  ∀ ok, SendWebhook Heartbeat ok
          ∉ actions_of_iteration cfg rg vm w2 (iteration cfg rg vm w1 s).2.
Proof.
  intros Hok Hdue Hsoon.
  apply iteration_without_heartbeat. right.
  by rewrite (iteration_with_heartbeat cfg rg vm w1 s Hok Hdue).
Qed.

(** An instance: a heartbeat at 1300, the next iteration at 1305. *)
Lemma heartbeats_are_spaced_witness :
  SendWebhook Heartbeat true
    ∉ actions_of_iteration ex_cfg (JStr "rg1") (JStr "vm1")
        (ex_cycle 1305 (events_response []) (plain_response 200))
        (iteration ex_cfg (JStr "rg1") (JStr "vm1")
           (ex_cycle 1300 (events_response []) (plain_response 200)) ex_state).2.
Proof.
  refine (heartbeats_are_spaced ex_cfg (JStr "rg1") (JStr "vm1")
            (ex_cycle 1300 (events_response []) (plain_response 200))
            (ex_cycle 1305 (events_response []) (plain_response 200)) ex_state
            _ _ _ true).
  - vm_compute; reflexivity.
  - vm_compute; discriminate.
  - vm_compute. intros H. apply H. reflexivity.
Defined.
